(** * e-commerceCp: analytics aggregation and product repository

    A shallow embedding of the two units of the admin dashboard that carry
    logic of their own:

    - the analytics aggregator of [EcommerceAnalytics] (the body of
      [fetchAnalyticsData]): revenue, average order value, conversion rate,
      the six-month sales series and the top-products ranking;
    - the product repository of [services/apiProducts]: [createProduct],
      [deleteProduct] and [updateProduct], which sequence calls to the
      hosted backend and swallow or propagate its failures.

    Part I holds the definitions, Part II the theorems. *)

From Stdlib Require Import String Ascii List ZArith QArith Bool Lia.
From Stdlib Require Import Sorting.Sorted Sorting.Permutation.
From Stdlib Require Import DecimalString.
Import ListNotations.

Local Open Scope string_scope.
Local Open Scope list_scope.

(* ===================================================================== *)
(** * Part I: definitions *)
(* ===================================================================== *)

(** ** JavaScript numbers

    Prices, totals and quantities are JavaScript [number]s.  The aggregator
    only adds, subtracts, multiplies and divides them and tests a difference
    for being positive, so the model is parametric in the arithmetic: every
    theorem of Part II holds for any interpretation of the operators (IEEE
    doubles, exact rationals).  [QNumber] is the interpretation used to run
    the definitions on concrete data. *)

Class JsNumber : Type := {
  num : Type;
  zero : num;                (* the literal 0 *)
  hundred : num;             (* the literal 100 *)
  add : num -> num -> num;   (* a + b *)
  sub : num -> num -> num;   (* a - b *)
  mul : num -> num -> num;   (* a * b *)
  div : num -> num -> num;   (* a / b *)
  of_nat : nat -> num;       (* an array length or a row count as a number *)
  gt0 : num -> bool          (* a > 0 *)
}.

#[export] Instance QNumber : JsNumber := {
  num := Q;
  zero := 0%Q;
  hundred := 100%Q;
  add := Qplus;
  sub := Qminus;
  mul := Qmult;
  div := Qdiv;
  of_nat := fun n => inject_Z (Z.of_nat n);
  gt0 := fun x => negb (Qle_bool x 0)
}.

(** ** JavaScript dates (ECMA-262, Date objects)

    A Date holds a time value: milliseconds since 1970-01-01T00:00:00Z.
    [getMonth], [setMonth] and [toLocaleDateString] work on local time,
    [toISOString] on UTC.  The local time zone is a fixed offset [tza] in
    milliseconds (LocalTZA, taken constant over the six months). *)

Module JsDate.
Local Open Scope Z_scope.

Definition msPerDay : Z := 86400000.

Definition Day (t : Z) : Z := t / msPerDay.
Definition TimeWithinDay (t : Z) : Z := t mod msPerDay.

(** Day number (days since the epoch) of the civil date [y]-[m+1]-[d] of the
    proleptic Gregorian calendar; [m] is 0-based as in JavaScript. *)
Definition days_from_civil (y m d : Z) : Z :=
  let y' := if m <? 2 then y - 1 else y in
  let era := y' / 400 in
  let yoe := y' - era * 400 in
  let mp := if m <? 2 then m + 10 else m - 2 in
  let doy := (153 * mp + 2) / 5 + d - 1 in
  let doe := yoe * 365 + yoe / 4 - yoe / 100 + doy in
  era * 146097 + doe - 719468.

(** Civil date (year, 0-based month, day of month) of a day number. *)
Definition civil_from_days (n : Z) : Z * Z * Z :=
  let z := n + 719468 in
  let era := z / 146097 in
  let doe := z - era * 146097 in
  let yoe := (doe - doe / 1460 + doe / 36524 - doe / 146096) / 365 in
  let doy := doe - (365 * yoe + yoe / 4 - yoe / 100) in
  let mp := (5 * doy + 2) / 153 in
  let d := doy - (153 * mp + 2) / 5 + 1 in
  let m := if mp <? 10 then mp + 2 else mp - 10 in
  let y := yoe + era * 400 + (if m <? 2 then 1 else 0) in
  (y, m, d).

Definition YearFromTime (t : Z) : Z := fst (fst (civil_from_days (Day t))).
Definition MonthFromTime (t : Z) : Z := snd (fst (civil_from_days (Day t))).
Definition DateFromTime (t : Z) : Z := snd (civil_from_days (Day t)).

(** MakeDay(year, month, date): the month may lie outside 0..11 and the date
    outside the month; both carry over. *)
Definition MakeDay (year month date : Z) : Z :=
  let ym := year + month / 12 in
  let mn := month mod 12 in
  days_from_civil ym mn 1 + date - 1.

Definition MakeDate (day time : Z) : Z := day * msPerDay + time.

Definition LocalTime (tza t : Z) : Z := t + tza.
Definition UTC (tza t : Z) : Z := t - tza.

(** [date.getMonth()] *)
Definition getMonth (tza t : Z) : Z := MonthFromTime (LocalTime tza t).

(** [date.setMonth(m)]: the new time value of the Date. *)
Definition setMonth (tza t m : Z) : Z :=
  let lt := LocalTime tza t in
  UTC tza (MakeDate (MakeDay (YearFromTime lt) m (DateFromTime lt))
                    (TimeWithinDay lt)).

Definition digit (d : Z) : ascii := ascii_of_nat (48 + Z.to_nat (d mod 10)).

Definition pad2 (n : Z) : string :=
  String (digit (n / 10)) (String (digit n) "").

Definition pad4 (n : Z) : string :=
  String (digit (n / 1000)) (String (digit (n / 100)) (pad2 n)).

Definition pad6 (n : Z) : string :=
  String (digit (n / 100000)) (String (digit (n / 10000)) (pad4 n)).

(** The date part of [date.toISOString()]: [YYYY-MM-DD], with the expanded
    signed six-digit year outside 0..9999. *)
Definition toISOString_date (t : Z) : string :=
  let y := YearFromTime t in
  let sign := if y <? 0 then "-"%string else "+"%string in
  let year :=
    if (0 <=? y) && (y <=? 9999) then pad4 y
    else String.append sign (pad6 (Z.abs y)) in
  let mm := pad2 (MonthFromTime t + 1) in
  let dd := pad2 (DateFromTime t) in
  (year ++ "-" ++ mm ++ "-" ++ dd)%string.

(** What [toLocaleDateString("ar-EG", { month: "short", year: "numeric" })]
    renders: the local year and month of the Date.  The label is kept as
    that pair rather than as the Arabic text the formatter produces. *)
Record MonthLabel : Type := {
  label_year : Z;
  label_month : Z     (* 0-based *)
}.

Definition toLocaleDateString_month_year (tza t : Z) : MonthLabel :=
  {| label_year := YearFromTime (LocalTime tza t);
     label_month := MonthFromTime (LocalTime tza t) |}.

End JsDate.

(** ** The analytics aggregator *)

Module Analytics.
Section Aggregator.
Context {N : JsNumber}.

(** The joined product of an order item ([item.products]); a name is absent
    ([None]) when the column is null. *)
Record ProductRef : Type := {
  name_ar : option string;
  name_en : option string
}.

Record OrderItem : Type := {
  item_price : num;                     (* item.price *)
  item_quantity : num;                  (* item.quantity *)
  item_products : option ProductRef     (* item.products *)
}.

Record Order : Type := {
  total_price : num;
  created_at : option string;
  order_items : option (list OrderItem)
}.

(** [orders.orders.reduce((sum, order) => sum + order.total_price, 0)] *)
Definition totalRevenue (orders : list Order) : num :=
  fold_left (fun sum order => add sum (total_price order)) orders zero.

(** [orders.orders.length > 0 ? totalRevenue / orders.orders.length : 0] *)
Definition averageOrderValue (orders : list Order) : num :=
  if (0 <? length orders)%nat
  then div (totalRevenue orders) (of_nat (length orders))
  else zero.

(** [userStats.total > 0 ? (orders.orders.length / userStats.total) * 100 : 0];
    [userStats.total] is the row count the backend reports for the users
    table, a natural number. *)
Definition conversionRate (orders : list Order) (userTotal : nat) : num :=
  if (0 <? userTotal)%nat
  then mul (div (of_nat (length orders)) (of_nat userTotal)) hundred
  else zero.

(** *** Sales by month *)

Record MonthEntry : Type := {
  month : JsDate.MonthLabel;
  revenue : num;
  orders : nat
}.

(** The Date of iteration [i]: [new Date()] followed by
    [date.setMonth(date.getMonth() - i)]. *)
Definition bucketDate (tza now : Z) (i : nat) : Z :=
  JsDate.setMonth tza now (JsDate.getMonth tza now - Z.of_nat i)%Z.

(** [date.toISOString().slice(0, 7)] *)
Definition monthKey (tza now : Z) (i : nat) : string :=
  substring 0 7 (JsDate.toISOString_date (bucketDate tza now i)).

(** [order.created_at?.startsWith(monthKey)]: an order without a timestamp
    yields [undefined] and is filtered out. *)
Definition inMonth (key : string) (order : Order) : bool :=
  match created_at order with
  | Some ts => prefix key ts
  | None => false
  end.

Definition monthBucket (tza now : Z) (os : list Order) (i : nat) : MonthEntry :=
  let monthOrders := filter (inMonth (monthKey tza now i)) os in
  {| month := JsDate.toLocaleDateString_month_year tza (bucketDate tza now i);
     revenue := fold_left (fun sum order => add sum (total_price order))
                          monthOrders zero;
     orders := length monthOrders |}.

(** [Array.from({ length: 6 }, (_, i) => ...).reverse()]; the six
    [new Date()] of the callback read the same instant [now]. *)
Definition salesByMonth (tza now : Z) (os : list Order) : list MonthEntry :=
  rev (map (monthBucket tza now os) (seq 0 6)).

(** *** Top products *)

(** A value of the [productSales] map. *)
Record ProductSales : Type := {
  name : string;
  sales : num;
  quantity : num
}.

(** The operand of [||] counts when it is neither null, undefined nor the
    empty string. *)
Definition truthy (o : option string) : option string :=
  match o with
  | Some s => if (s =? "")%string then None else Some s
  | None => None
  end.

(** [item.products?.name_ar] and [item.products?.name_en] *)
Definition item_name_ar (item : OrderItem) : option string :=
  match item_products item with Some p => name_ar p | None => None end.

Definition item_name_en (item : OrderItem) : option string :=
  match item_products item with Some p => name_en p | None => None end.

(** [item.products?.name_ar || item.products?.name_en || "Unknown Product"] *)
Definition productName (item : OrderItem) : string :=
  match truthy (item_name_ar item) with
  | Some s => s
  | None =>
      match truthy (item_name_en item) with
      | Some s => s
      | None => "Unknown Product"
      end
  end.

(** One pass of the inner [forEach] body over the map.  The Map keeps its
    entries in insertion order and holds one entry per key: an entry that
    [get] finds is updated where it stands, a new name is [set] at the end. *)
Fixpoint recordSale (item : OrderItem) (m : list ProductSales) : list ProductSales :=
  match m with
  | [] =>
      [ {| name := productName item;
           sales := mul (item_price item) (item_quantity item);
           quantity := item_quantity item |} ]
  | existing :: m' =>
      if (name existing =? productName item)%string
      then {| name := name existing;
              sales := add (sales existing)
                           (mul (item_price item) (item_quantity item));
              quantity := add (quantity existing) (item_quantity item) |} :: m'
      else existing :: recordSale item m'
  end.

(** [order.order_items?.forEach(...)] *)
Definition itemsOf (order : Order) : list OrderItem :=
  match order_items order with
  | Some items => items
  | None => []
  end.

(** The map after [orders.orders.forEach(...)], as
    [Array.from(productSales.values())] lists it. *)
Definition productSales (os : list Order) : list ProductSales :=
  fold_left
    (fun m order => fold_left (fun m' item => recordSale item m') (itemsOf order) m)
    os [].

(** The comparator [(a, b) => b.sales - a.sales]. *)
Definition bySalesDesc (a b : ProductSales) : num := sub (sales b) (sales a).

(** [Array.prototype.sort(cmp)].  The sort is stable and places [a] after
    [b] when [cmp(a, b) > 0]; for a consistent comparator that fixes the
    result, which this insertion sort computes. *)
Fixpoint insertBy (cmp : ProductSales -> ProductSales -> num)
    (x : ProductSales) (l : list ProductSales) : list ProductSales :=
  match l with
  | [] => [x]
  | y :: l' => if gt0 (cmp x y) then y :: insertBy cmp x l' else x :: l
  end.

Fixpoint sortBy (cmp : ProductSales -> ProductSales -> num)
    (l : list ProductSales) : list ProductSales :=
  match l with
  | [] => []
  | x :: l' => insertBy cmp x (sortBy cmp l')
  end.

(** [Array.from(productSales.values()).sort(...).slice(0, 5)] *)
Definition topProducts (os : list Order) : list ProductSales :=
  firstn 5 (sortBy bySalesDesc (productSales os)).

End Aggregator.
End Analytics.

(** ** The product repository *)

Module Repo.

(** *** The storage path of an image URL

    [path.match(/\/storage\/v1\/object\/public\/product-images\/(.+)/)]: the
    leftmost place where the literal prefix is followed by at least one
    character that is not a line terminator; the group captures all such
    characters up to the next line terminator or the end.  Strings are
    UTF-8 byte strings, so U+2028 and U+2029 are three bytes each. *)

Definition publicPrefix : string := "/storage/v1/object/public/product-images/".

(** [stripPrefix p s]: what follows [p] in [s], when [s] starts with [p]. *)
Fixpoint stripPrefix (p s : string) : option string :=
  match p, s with
  | EmptyString, _ => Some s
  | String a p', String b s' => if Ascii.eqb a b then stripPrefix p' s' else None
  | String _ _, EmptyString => None
  end.

Definition startsLineTerminator (s : string) : bool :=
  prefix (String "010" "") s || prefix (String "013" "") s
  || prefix (String "226" (String "128" (String "168" ""))) s
  || prefix (String "226" (String "128" (String "169" ""))) s.

(** The greedy [.+]: the characters up to the first line terminator. *)
Fixpoint dotPlus (s : string) : string :=
  match s with
  | EmptyString => EmptyString
  | String c s' => if startsLineTerminator s then EmptyString else String c (dotPlus s')
  end.

(** A match that starts at the first character. *)
Definition matchHere (path : string) : option string :=
  match stripPrefix publicPrefix path with
  | Some rest =>
      match dotPlus rest with
      | EmptyString => None
      | captured => Some captured
      end
  | None => None
  end.

(** [match?.[1]]: the capture of the leftmost match, if there is one. *)
Fixpoint matchImagePath (path : string) : option string :=
  match matchHere path with
  | Some captured => Some captured
  | None =>
      match path with
      | String _ path' => matchImagePath path'
      | EmptyString => None
      end
  end.

Section Repository.
Context {N : JsNumber}.

(** *** Rows *)

Record ProductAttribute : Type := {
  attr_id : option string;        (* id? *)
  product_id : option string;     (* product_id? *)
  attribute_name : string;
  attribute_value : string
}.

(** A row of the products table: [Product] without its joined attributes,
    the [...product] of the destructuring in [createProduct]. *)
Record ProductRow : Type := {
  id : option string;
  name_ar : string;
  name_en : string;
  description_ar : option string;
  description_en : option string;
  price : num;
  offer_price : option num;
  stock : option num;
  image_url : option (list string);
  category_id : option string;
  is_best_seller : option bool;
  limited_time_offer : option bool;
  created_at : option string;
  updated_at : option string
}.

Record Product : Type := {
  row : ProductRow;
  attributes : option (list ProductAttribute)
}.

(** [Partial<Product>] without [attributes]: every column optional. *)
Record ProductPatch : Type := {
  set_id : option string;
  set_name_ar : option string;
  set_name_en : option string;
  set_description_ar : option string;
  set_description_en : option string;
  set_price : option num;
  set_offer_price : option num;
  set_stock : option num;
  set_image_url : option (list string);
  set_category_id : option string;
  set_is_best_seller : option bool;
  set_limited_time_offer : option bool;
  set_created_at : option string;
  set_updated_at : option string
}.

Record PartialProduct : Type := {
  patch : ProductPatch;
  new_attributes : option (list ProductAttribute)   (* attributes? *)
}.

(** *** The backend

    Every call to the hosted backend resolves to [{ data, error }]; it never
    rejects.  The backend is any state machine that answers the seven
    requests the repository makes. *)

Record BackendError : Type := { message : string }.

Inductive Response (A : Type) : Type :=
| Data (data : A)
| Failure (error : BackendError).
Arguments Data {A} data.
Arguments Failure {A} error.

Inductive Request : Type :=
| InsertProduct (product : ProductRow)
    (* from("products").insert([product]).select().single() *)
| InsertAttributes (attrs : list ProductAttribute)
    (* from("product_attributes").insert(attrs) *)
| SelectImageUrl (id : string)
    (* from("products").select("image_url").eq("id", id).single() *)
| StorageRemove (paths : list string)
    (* storage.from("product-images").remove(paths) *)
| DeleteProductRow (id : string)
    (* from("products").delete().eq("id", id) *)
| UpdateProductRow (id : string) (product : ProductPatch)
    (* from("products").update(product).eq("id", id).select().single() *)
| DeleteAttributes (id : string).
    (* from("product_attributes").delete().eq("product_id", id) *)

Record Backend (S : Type) : Type := {
  insert_product : ProductRow -> S -> Response ProductRow * S;
  insert_attributes : list ProductAttribute -> S -> Response unit * S;
  select_image_url : string -> S -> Response (option (list string)) * S;
  storage_remove : list string -> S -> Response unit * S;
  delete_product_row : string -> S -> Response unit * S;
  update_product_row : string -> ProductPatch -> S -> Response ProductRow * S;
  delete_attributes : string -> S -> Response unit * S
}.
Arguments insert_product {S} _ _ _.
Arguments insert_attributes {S} _ _ _.
Arguments select_image_url {S} _ _ _.
Arguments storage_remove {S} _ _ _.
Arguments delete_product_row {S} _ _ _.
Arguments update_product_row {S} _ _ _ _.
Arguments delete_attributes {S} _ _ _.

(** *** Effects

    A run threads the backend state and records, in order, every request
    sent (with the error it came back with, if any) and every line written
    with [console.error]. *)

Inductive LogDetail : Type :=
| ErrorObject (e : BackendError)    (* console.error(label, error) *)
| ErrorMessage (m : string).        (* console.error(label, error.message) *)

Inductive Event : Type :=
| Call (request : Request) (error : option BackendError)
| ConsoleError (label : string) (detail : LogDetail).

Inductive Exn : Type :=
| Error (msg : string)        (* throw new Error(msg) *)
| TypeError (input : string). (* new URL(input) on an invalid URL *)

Inductive Outcome (A : Type) : Type :=
| Returned (value : A)
| Thrown (exn : Exn).
Arguments Returned {A} value.
Arguments Thrown {A} exn.

Definition M (S A : Type) : Type := S -> Outcome A * S * list Event.

Definition ret {S A} (a : A) : M S A := fun s => (Returned a, s, []).

Definition throw {S A} (e : Exn) : M S A := fun s => (Thrown e, s, []).

Definition bind {S A B} (m : M S A) (k : A -> M S B) : M S B :=
  fun s =>
    match m s with
    | (Returned a, s1, t1) =>
        match k a s1 with
        | (out, s2, t2) => (out, s2, t1 ++ t2)
        end
    | (Thrown e, s1, t1) => (Thrown e, s1, t1)
    end.

Definition console_error {S} (label : string) (detail : LogDetail) : M S unit :=
  fun s => (Returned tt, s, [ConsoleError label detail]).

Definition errorOf {A} (r : Response A) : option BackendError :=
  match r with
  | Data _ => None
  | Failure e => Some e
  end.

(** [await] of a backend request. *)
Definition call {S A} (req : Request) (handler : S -> Response A * S)
  : M S (Response A) :=
  fun s =>
    match handler s with
    | (r, s1) => (Returned r, s1, [Call req (errorOf r)])
    end.

(** [for (const x of xs) { ... }] *)
Fixpoint forEach {S A} (body : A -> M S unit) (xs : list A) : M S unit :=
  match xs with
  | [] => ret tt
  | x :: xs' => bind (body x) (fun _ => forEach body xs')
  end.

Notation "x <- m ;; k" := (bind m (fun x => k))
  (at level 61, m at next level, right associativity).
Notation "m ;; k" := (bind m (fun _ => k))
  (at level 61, right associativity).

(** [{ ...attr, product_id: pid }] *)
Definition withProductId (pid : option string) (attr : ProductAttribute)
  : ProductAttribute :=
  {| attr_id := attr_id attr;
     product_id := pid;
     attribute_name := attribute_name attr;
     attribute_value := attribute_value attr |}.

(** The created row as the function returns it: the row the insert
    answered with, typed [Product], with no [attributes] key. *)
Definition productOfRow (r : ProductRow) : Product :=
  {| row := r; attributes := None |}.

Section Operations.
Context {S : Type} (B : Backend S).

(** [new URL(imageUrl).pathname] of the platform; [None] when the
    constructor throws its TypeError. *)
Variable pathname : string -> option string.

Definition createProduct (productData : Product) : M S Product :=
  let attributes := attributes productData in
  let product := row productData in
  r <- call (InsertProduct product) (insert_product B product) ;;
  match r with
  | Failure productError =>
      console_error "خطأ في إنشاء المنتج:" (ErrorObject productError) ;;
      throw (Error "تعذر إنشاء المنتج")
  | Data createdProduct =>
      match attributes with
      | Some attrs =>
          if (0 <? length attrs)%nat then
            let attributesWithProductId :=
              map (withProductId (id createdProduct)) attrs in
            r' <- call (InsertAttributes attributesWithProductId)
                       (insert_attributes B attributesWithProductId) ;;
            match r' with
            | Failure attributesError =>
                console_error "خطأ في إنشاء خصائص المنتج:"
                              (ErrorObject attributesError)
            | Data _ => ret tt
            end
          else ret tt
      | None => ret tt
      end ;;
      ret (productOfRow createdProduct)
  end.

(** The body of the loop over [product.image_url]. *)
Definition removeImage (imageUrl : string) : M S unit :=
  match pathname imageUrl with
  | None => throw (TypeError imageUrl)
  | Some path =>
      match matchImagePath path with
      | Some filePath =>
          if (filePath =? "")%string then ret tt
          else
            r <- call (StorageRemove [filePath]) (storage_remove B [filePath]) ;;
            match r with
            | Failure storageError =>
                console_error "فشل حذف صورة المنتج:" (ErrorObject storageError)
            | Data _ => ret tt
            end
      | None => ret tt
      end
  end.

Definition deleteProduct (id : string) : M S unit :=
  r <- call (SelectImageUrl id) (select_image_url B id) ;;
  match r with
  | Failure fetchError =>
      console_error "Supabase fetch error:" (ErrorObject fetchError) ;;
      throw (Error "حدث خطأ أثناء جلب بيانات المنتج")
  | Data image_urls =>
      match image_urls with
      | Some urls =>
          if (0 <? length urls)%nat then forEach removeImage urls else ret tt
      | None => ret tt
      end ;;
      r' <- call (DeleteProductRow id) (delete_product_row B id) ;;
      match r' with
      | Failure deleteError => throw (Error "حدث خطأ أثناء حذف المنتج")
      | Data _ => ret tt
      end
  end.

Definition updateProduct (id : string) (updatedProduct : PartialProduct)
  : M S ProductRow :=
  let attributes := new_attributes updatedProduct in
  let product := patch updatedProduct in
  r <- call (UpdateProductRow id product)
            (update_product_row B id product) ;;
  match r with
  | Failure error =>
      console_error "خطأ في تحديث المنتج:" (ErrorMessage (message error)) ;;
      throw (Error "تعذر تحديث المنتج")
  | Data data =>
      match attributes with
      | Some attrs =>
          call (DeleteAttributes id) (delete_attributes B id) ;;
          if (0 <? length attrs)%nat then
            let attributesWithProductId :=
              map (withProductId (Some id)) attrs in
            r' <- call (InsertAttributes attributesWithProductId)
                       (insert_attributes B attributesWithProductId) ;;
            match r' with
            | Failure attributesError =>
                console_error "خطأ في تحديث خصائص المنتج:"
                              (ErrorObject attributesError)
            | Data _ => ret tt
            end
          else ret tt
      | None => ret tt
      end ;;
      ret data
  end.

End Operations.

(** *** Reading a run *)

Definition requests (t : list Event) : list Request :=
  flat_map (fun e => match e with Call r _ => [r] | ConsoleError _ _ => [] end) t.

Definition consoleErrors (t : list Event) : list (string * LogDetail) :=
  flat_map (fun e => match e with
                     | Call _ _ => []
                     | ConsoleError l d => [(l, d)]
                     end) t.

(** The errors the storage removals of a run came back with, in order. *)
Definition storageFailures (t : list Event) : list BackendError :=
  flat_map (fun e => match e with
                     | Call (StorageRemove _) (Some err) => [err]
                     | _ => []
                     end) t.

Definition isProductDelete (r : Request) : bool :=
  match r with DeleteProductRow _ => true | _ => false end.

Definition isAttributeWrite (r : Request) : bool :=
  match r with
  | InsertAttributes _ | DeleteAttributes _ => true
  | _ => false
  end.

(** The storage paths [deleteProduct] derives from a list of image URLs. *)
Definition storagePaths (pathname : string -> option string)
    (urls : list string) : list string :=
  flat_map (fun url =>
              match pathname url with
              | Some path =>
                  match matchImagePath path with
                  | Some filePath => [filePath]
                  | None => []
                  end
              | None => []
              end) urls.

End Repository.

Arguments Data {A} data.
Arguments Failure {A} error.
Arguments Returned {A} value.
Arguments Thrown {A} exn.
Arguments insert_product {N S} _ _ _.
Arguments insert_attributes {N S} _ _ _.
Arguments select_image_url {N S} _ _ _.
Arguments storage_remove {N S} _ _ _.
Arguments delete_product_row {N S} _ _ _.
Arguments update_product_row {N S} _ _ _ _.
Arguments delete_attributes {N S} _ _ _.

End Repo.

(** ** Vocabulary of the statements *)

Module Spec.
Section Vocabulary.
Context {N : JsNumber}.
Import Analytics.

(** The calendar month [i] months before the month [l]. *)
Definition monthsBefore (l : JsDate.MonthLabel) (i : nat) : JsDate.MonthLabel :=
  {| JsDate.label_year :=
       (JsDate.label_year l + (JsDate.label_month l - Z.of_nat i) / 12)%Z;
     JsDate.label_month := ((JsDate.label_month l - Z.of_nat i) mod 12)%Z |}.

(** Every item of every fetched order, in the order the two nested
    [forEach] loops visit them. *)
Definition allItems (os : list Order) : list OrderItem :=
  flat_map itemsOf os.

(** A name is present when it is a non-empty string. *)
Definition present (o : option string) (s : string) : Prop :=
  o = Some s /\ s <> "".

Definition absent (o : option string) : Prop :=
  o = None \/ o = Some "".

(** [first.price * first.quantity], then [+= price * quantity] for each
    further item. *)
Definition salesOver (first : OrderItem) (rest : list OrderItem) : num :=
  fold_left (fun acc it => add acc (mul (item_price it) (item_quantity it)))
            rest (mul (item_price first) (item_quantity first)).

(** [first.quantity], then [+= quantity] for each further item. *)
Definition quantityOver (first : OrderItem) (rest : list OrderItem) : num :=
  fold_left (fun acc it => add acc (item_quantity it))
            rest (item_quantity first).

(** The entry [e] accumulates exactly the items of [items] that resolve to
    its name, in their order. *)
Definition accumulates (items : list OrderItem) (e : ProductSales) : Prop :=
  exists first rest,
    filter (fun it => (productName it =? name e)%string) items = first :: rest
    /\ sales e = salesOver first rest
    /\ quantity e = quantityOver first rest.

(** [a] may stand before [b] in a descending ranking: [b.sales - a.sales]
    is not positive. *)
Definition notBelow (a b : ProductSales) : Prop :=
  gt0 (sub (sales b) (sales a)) = false.

(** The comparator is consistent when "the difference is positive" is a
    strict weak order on numbers, as it is on the reals and on finite
    doubles. *)
Definition consistentDifference : Prop :=
  (forall x y : num, gt0 (sub y x) = true -> gt0 (sub x y) = false)
  /\ (forall x y z : num,
        gt0 (sub y x) = false -> gt0 (sub z y) = false -> gt0 (sub z x) = false).

(** The state of the [productSales] map after the items [items]: one entry
    per name met, each accumulating its items. *)
Definition accumulated (items : list OrderItem) (m : list ProductSales) : Prop :=
  NoDup (map name m)
  /\ (forall e, In e m -> accumulates items e)
  /\ (forall it, In it items -> In (productName it) (map name m)).

End Vocabulary.

Section RepositoryVocabulary.
Context {N : JsNumber}.
Import Repo.

(** A stored image URL the platform parses. *)
Definition wellFormed (pathname : string -> option string) (url : string) : Prop :=
  pathname url <> None.


(** [product.image_url] as the list the loop runs over: a null column
    holds no image. *)
Definition storedUrls (image_urls : option (list string)) : list string :=
  match image_urls with
  | Some urls => urls
  | None => []
  end.

(** What [deleteProduct] ends with, given the answer to the row deletion. *)
Definition deletionOutcome (r : Response unit) : Outcome unit :=
  match r with
  | Data _ => Returned tt
  | Failure _ => Thrown (Error "حدث خطأ أثناء حذف المنتج")
  end.

(** The line logged for a storage removal that came back with [e]. *)
Definition removalLog (e : BackendError) : string * LogDetail :=
  ("فشل حذف صورة المنتج:", ErrorObject e).

(** The reading of "any failure of the attribute deletion or insertion is
    logged" for [updateProduct]: whenever a request on the attributes table
    comes back with an error, that error is written with [console.error]. *)
Definition attributeFailuresLogged : Prop :=
  forall (S : Type) (B : Backend S) (id : string)
         (updatedProduct : PartialProduct) (s s' : S)
         (out : Outcome ProductRow) (t : list Event),
    new_attributes updatedProduct <> None ->
    updateProduct B id updatedProduct s = (out, s', t) ->
    forall r e,
      In (Call r (Some e)) t -> isAttributeWrite r = true ->
      exists label, In (ConsoleError label (ErrorObject e)) t.

End RepositoryVocabulary.
End Spec.

(** ** Concrete data for running the definitions *)

Module Fixtures.
Import Analytics.

Definition item (ar en : option string) (p q : Q) : OrderItem :=
  {| item_price := p;
     item_quantity := q;
     item_products := Some {| name_ar := ar; name_en := en |} |}.

(** The order of the scenario in the specification's testable properties. *)
Definition scenarioOrder : Order :=
  {| total_price := 100%Q;
     created_at := Some "2024-01-15";
     order_items := Some [item (Some "A") None 50%Q 2%Q] |}.

Definition mixedOrder : Order :=
  {| total_price := 325%Q;
     created_at := Some "2024-03-02T09:30:00+00:00";
     order_items :=
       Some [item (Some "A") None 50%Q 2%Q;
             item (Some "") (Some "B") 10%Q 1%Q;
             item (Some "A") (Some "a") 5%Q 1%Q;
             item None None 200%Q 1%Q] |}.

Definition februaryOrder : Order :=
  {| total_price := 100%Q;
     created_at := Some "2024-02-15T10:00:00+00:00";
     order_items := None |}.

Definition marchOrder : Order :=
  {| total_price := 40%Q;
     created_at := Some "2024-03-05T08:00:00+00:00";
     order_items := None |}.

(** 2024-03-31T12:00:00.000Z *)
Definition noon_2024_03_31 : Z := 1711886400000%Z.

(** Africa/Cairo in March 2024: UTC+02:00. *)
Definition cairo : Z := 7200000%Z.

Import Repo.

(** A stand-in for [new URL(url).pathname] on URLs of the form
    [http(s)://host/path?query#fragment]; anything else is rejected. *)
Fixpoint upTo (stop : ascii -> bool) (s : string) : string :=
  match s with
  | EmptyString => EmptyString
  | String c s' => if stop c then EmptyString else String c (upTo stop s')
  end.

Fixpoint dropTo (stop : ascii -> bool) (s : string) : string :=
  match s with
  | EmptyString => EmptyString
  | String c s' => if stop c then s else dropTo stop s'
  end.

Definition simplePathname (url : string) : option string :=
  let afterScheme :=
    match stripPrefix "https://" url with
    | Some rest => Some rest
    | None => stripPrefix "http://" url
    end in
  match afterScheme with
  | None => None
  | Some rest =>
      let path := upTo (fun c => Ascii.eqb c "?" || Ascii.eqb c "#")
                       (dropTo (Ascii.eqb "/") rest) in
      Some (if (path =? "")%string then "/"%string else path)
  end.

Definition boom : BackendError := {| message := "backend failure" |}.

Definition assignId (pid : string) (r : ProductRow) : ProductRow :=
  {| id := Some pid;
     name_ar := name_ar r; name_en := name_en r;
     description_ar := description_ar r; description_en := description_en r;
     price := price r; offer_price := offer_price r; stock := stock r;
     image_url := image_url r; category_id := category_id r;
     is_best_seller := is_best_seller r;
     limited_time_offer := limited_time_offer r;
     created_at := created_at r; updated_at := updated_at r |}.

Definition answer {A} (fails : Request -> bool) (req : Request) (a : A)
    (served : nat) : Response A * nat :=
  (if fails req then Failure boom else Data a, S served).

(** A backend for running the repository: it fails exactly the requests
    [fails] selects, answers the others from [stored], and counts the
    requests it has served. *)
Definition mock (fails : Request -> bool) (stored : ProductRow) : Backend nat :=
  {| insert_product := fun p => answer fails (InsertProduct p) (assignId "p-1" p);
     insert_attributes := fun attrs => answer fails (InsertAttributes attrs) tt;
     select_image_url := fun pid => answer fails (SelectImageUrl pid) (image_url stored);
     storage_remove := fun paths => answer fails (StorageRemove paths) tt;
     delete_product_row := fun pid => answer fails (DeleteProductRow pid) tt;
     update_product_row := fun pid fields => answer fails (UpdateProductRow pid fields) stored;
     delete_attributes := fun pid => answer fails (DeleteAttributes pid) tt |}.

Definition bucketUrl (file : string) : string :=
  ("https://shop.example.co/storage/v1/object/public/product-images/" ++ file)%string.

Definition shirt : ProductRow :=
  {| id := None;
     name_ar := "قميص"; name_en := "Shirt";
     description_ar := None; description_en := None;
     price := 250%Q; offer_price := None; stock := Some 12%Q;
     image_url := Some [bucketUrl "products/1-a.png";
                        "https://cdn.example.com/banners/shirt.png";
                        bucketUrl "products/1-b.png";
                        bucketUrl "products/1-c.png"];
     category_id := None; is_best_seller := Some false;
     limited_time_offer := None; created_at := None; updated_at := None |}.

Definition storedShirt : ProductRow := assignId "p-1" shirt.

(** A row whose image list holds a bare storage key instead of a URL. *)
Definition legacyShirt : ProductRow :=
  {| id := Some "p-2";
     name_ar := "قميص"; name_en := "Shirt";
     description_ar := None; description_en := None;
     price := 250%Q; offer_price := None; stock := None;
     image_url := Some [bucketUrl "products/2-a.png"; "products/2-b.png"];
     category_id := None; is_best_seller := None;
     limited_time_offer := None; created_at := None; updated_at := None |}.

Definition colour : ProductAttribute :=
  {| attr_id := None; product_id := None;
     attribute_name := "color"; attribute_value := "blue" |}.

Definition size : ProductAttribute :=
  {| attr_id := None; product_id := None;
     attribute_name := "size"; attribute_value := "L" |}.

Definition noFields : ProductPatch :=
  {| set_id := None; set_name_ar := None; set_name_en := None;
     set_description_ar := None; set_description_en := None;
     set_price := None; set_offer_price := None; set_stock := None;
     set_image_url := None; set_category_id := None;
     set_is_best_seller := None; set_limited_time_offer := None;
     set_created_at := None; set_updated_at := None |}.

Definition newShirt : Product :=
  {| row := shirt; attributes := Some [colour; size] |}.

Definition recolour : PartialProduct :=
  {| patch := noFields; new_attributes := Some [colour] |}.

Definition failsProductInsert (r : Request) : bool :=
  match r with InsertProduct _ => true | _ => false end.

Definition failsAttributeInsert (r : Request) : bool :=
  match r with InsertAttributes _ => true | _ => false end.

Definition failsAttributeDelete (r : Request) : bool :=
  match r with DeleteAttributes _ => true | _ => false end.

Definition failsSelect (r : Request) : bool :=
  match r with SelectImageUrl _ => true | _ => false end.

Definition failsSecondImage (r : Request) : bool :=
  match r with
  | StorageRemove [path] => (path =? "products/1-b.png")%string
  | _ => false
  end.

Definition failsNothing (r : Request) : bool := false.

End Fixtures.

(** ** More of the Date object *)

Module JsDateSetters.
Import JsDate.
Local Open Scope Z_scope.

Definition msPerHour : Z := 3600000.
Definition msPerMinute : Z := 60000.
Definition msPerSecond : Z := 1000.

Definition MakeTime (hour min sec ms : Z) : Z :=
  hour * msPerHour + min * msPerMinute + sec * msPerSecond + ms.

(** [date.getDate()] and [date.getFullYear()] *)
Definition getDate (tza t : Z) : Z := DateFromTime (LocalTime tza t).
Definition getFullYear (tza t : Z) : Z := YearFromTime (LocalTime tza t).

(** [date.setHours(hour, min, sec, ms)] *)
Definition setHours (tza t hour min sec ms : Z) : Z :=
  let lt := LocalTime tza t in
  UTC tza (MakeDate (Day lt) (MakeTime hour min sec ms)).

(** [date.setDate(dt)] *)
Definition setDate (tza t dt : Z) : Z :=
  let lt := LocalTime tza t in
  UTC tza (MakeDate (MakeDay (YearFromTime lt) (MonthFromTime lt) dt)
                    (TimeWithinDay lt)).

(** [date.setFullYear(year)] *)
Definition setFullYear (tza t year : Z) : Z :=
  let lt := LocalTime tza t in
  UTC tza (MakeDate (MakeDay year (MonthFromTime lt) (DateFromTime lt))
                    (TimeWithinDay lt)).

Definition pad3 (n : Z) : string := String (digit (n / 100)) (pad2 n).

(** [date.toISOString()]: [YYYY-MM-DDTHH:mm:ss.sssZ] *)
Definition toISOString (t : Z) : string :=
  let w := TimeWithinDay t in
  let hh := pad2 (w / msPerHour) in
  let mm := pad2 (w / msPerMinute mod 60) in
  let ss := pad2 (w / msPerSecond mod 60) in
  let ms := pad3 (w mod msPerSecond) in
  (toISOString_date t ++ "T" ++ hh ++ ":" ++ mm ++ ":" ++ ss ++ "." ++ ms ++ "Z")%string.

End JsDateSetters.

(** ** The catalogue reads and the image upload *)

Module Catalog.

(** *** File names *)

(** [name.split(".").pop()]: what follows the last dot, or the whole name
    when it has no dot.  [acc] is the segment read so far. *)
Fixpoint lastSegmentFrom (acc name : string) : string :=
  match name with
  | EmptyString => acc
  | String c name' =>
      if Ascii.eqb c "." then lastSegmentFrom EmptyString name'
      else lastSegmentFrom (acc ++ String c EmptyString) name'
  end.

Definition fileExtOf (name : string) : string := lastSegmentFrom EmptyString name.

(** The template literal renders [Date.now()] in decimal. *)
Definition numberToString (n : Z) : string :=
  DecimalString.NilZero.string_of_int (Z.to_int n).

(** [`${folder}/${Date.now()}-${Math.random().toString(36).substring(2)}.${fileExt}`];
    [token] is what [Math.random().toString(36).substring(2)] yields. *)
Definition storageKey (folder : string) (now : Z) (token fileExt : string) : string :=
  (folder ++ "/" ++ numberToString now ++ "-" ++ token ++ "." ++ fileExt)%string.

Section Reads.
Context {N : JsNumber}.
Import Repo.

(** *** The products query *)

Record Filters : Type := {
  categoryId : option string;
  search : option string;
  date : option string;
  isBestSeller : option bool;
  limitedTimeOffer : option bool
}.

Inductive Value : Type :=
| VString (s : string)
| VBool (b : bool).

(** The calls made on the query builder, in order. *)
Inductive QueryStep : Type :=
| FromSelect (table columns : string) (countExact : bool)
| Eq (column : string) (v : Value)
| Or (filter : string)
| Gte (column value : string)
| Order (column : string) (ascending : bool)
| Range (from to : Z).

(** The template literal passed to [select], with its line breaks and
    indentation. *)
Definition newline : string := String "010" EmptyString.

Definition productColumns : string :=
  (newline ++ "      *," ++ newline
   ++ "      attributes:product_attributes(*)" ++ newline ++ "    ")%string.

(** The [switch (filters.date)] on [startDate]; [now] and [startDate] are
    the instants of the two [new Date()]. *)
Definition windowStart (tza now startDate : Z) (key : string) : Z :=
  if (key =? "today")%string then JsDateSetters.setHours tza startDate 0 0 0 0
  else if (key =? "week")%string then
    JsDateSetters.setDate tza startDate (JsDateSetters.getDate tza now - 7)%Z
  else if (key =? "month")%string then
    JsDate.setMonth tza startDate (JsDate.getMonth tza now - 1)%Z
  else if (key =? "year")%string then
    JsDateSetters.setFullYear tza startDate (JsDateSetters.getFullYear tza now - 1)%Z
  else startDate.

Definition field {A} (filters : option Filters) (f : Filters -> option A) : option A :=
  match filters with
  | Some fs => f fs
  | None => None
  end.

Definition searchFilter (s : string) : string :=
  ("name_ar.ilike.%" ++ s ++ "%,name_en.ilike.%" ++ s ++ "%")%string.

(** The filter calls, in the order of the [if]s. *)
Definition filterSteps (filters : option Filters) (tza now startDate : Z)
  : list QueryStep :=
  (match Analytics.truthy (field filters categoryId) with
   | Some c => [Eq "category_id" (VString c)]
   | None => []
   end)
  ++ (match Analytics.truthy (field filters search) with
      | Some s => [Or (searchFilter s)]
      | None => []
      end)
  ++ (match Analytics.truthy (field filters date) with
      | Some key =>
          [Gte "created_at"
               (JsDateSetters.toISOString (windowStart tza now startDate key))]
      | None => []
      end)
  ++ (match field filters isBestSeller with
      | Some b => [Eq "is_best_seller" (VBool b)]
      | None => []
      end)
  ++ (match field filters limitedTimeOffer with
      | Some b => [Eq "limited_time_offer" (VBool b)]
      | None => []
      end).

(** [const from = (page - 1) * limit; const to = from + limit - 1] *)
Definition rangeFrom (page limit : Z) : Z := ((page - 1) * limit)%Z.
Definition rangeTo (page limit : Z) : Z := (rangeFrom page limit + limit - 1)%Z.

(** The query [getProducts] awaits. *)
Definition productsQuery (page limit : Z) (filters : option Filters)
    (tza now startDate : Z) : list QueryStep :=
  FromSelect "products" productColumns true
  :: filterSteps filters tza now startDate
  ++ [Order "created_at" false;
      Range (rangeFrom page limit) (rangeTo page limit)].

(** *** The backend of the reads *)

Record QueryResult : Type := {
  data : option (list Product);
  error : option BackendError;
  count : option Z
}.

Inductive UploadData : Type :=
| FileBody (name : string)             (* the File itself *)
| DecodedBase64 (base64 : string).     (* decode(file.base64) *)

Record ReadBackend (S : Type) : Type := {
  run_query : list QueryStep -> S -> QueryResult * S;
  select_product : string -> S -> Response Product * S;
  storage_upload : string -> UploadData -> string -> S -> Response unit * S;
  getPublicUrl : string -> string
}.

Inductive ReadEvent : Type :=
| Query (steps : list QueryStep) (err : option BackendError)
| SelectProduct (id : string) (err : option BackendError)
| Upload (key : string) (body : UploadData) (contentType : string)
         (err : option BackendError)
| LogError (label message : string)     (* console.error(label, error.message) *)
| LogDebug (label : string).            (* console.log(label, value) *)

Inductive Raised : Type :=
| RaisedError (msg : string)            (* throw new Error(msg) *)
| RaisedBackend (e : BackendError).     (* throw error *)

Inductive Result (A : Type) : Type :=
| Resolved (value : A)
| Rejected (reason : Raised).

Record ProductPage : Type := {
  products : list Product;
  total : Z
}.

(** The argument of [uploadProductImage]. *)
Inductive ImageFile : Type :=
| NativeFile (name type : string)
| Base64File (base64 name : string).

End Reads.

Arguments Resolved {A} value.
Arguments Rejected {A} reason.
Arguments run_query {N S} _ _ _.
Arguments select_product {N S} _ _ _.
Arguments storage_upload {N S} _ _ _ _ _.
Arguments getPublicUrl {N S} _ _.

Section Operations.
Context {N : JsNumber} {S : Type} (B : ReadBackend S).
Import Repo.

(** [page = 1, limit = 10]: a default applies to an omitted argument. *)
Definition orDefault (d : Z) (arg : option Z) : Z :=
  match arg with
  | Some v => v
  | None => d
  end.

Definition getProducts (page limit : option Z) (filters : option Filters)
    (tza now startDate : Z) (s : S)
  : Result ProductPage * S * list ReadEvent :=
  let query :=
    productsQuery (orDefault 1 page) (orDefault 10 limit) filters
                  tza now startDate in
  match run_query B query s with
  | (res, s1) =>
      match error res with
      | Some e =>
          (Rejected (RaisedError "تعذر تحميل المنتجات"), s1,
           [Query query (Some e);
            LogError "خطأ في جلب المنتجات:" (message e)])
      | None =>
          (Resolved {| products := match data res with
                                   | Some rows => rows
                                   | None => []
                                   end;
                       total := match count res with
                                | Some n => n
                                | None => 0%Z
                                end |},
           s1,
           [Query query None;
            LogDebug "Debug - Raw products data from getProducts:";
            LogDebug "Debug - Products count:"])
      end
  end.

Definition getProductById (id : string) (s : S)
  : Result Product * S * list ReadEvent :=
  match select_product B id s with
  | (Failure e, s1) => (Rejected (RaisedBackend e), s1, [SelectProduct id (Some e)])
  | (Data p, s1) => (Resolved p, s1, [SelectProduct id None])
  end.

Definition fileName (file : ImageFile) : string :=
  match file with
  | NativeFile name _ => name
  | Base64File _ name => name
  end.

(** [file instanceof File ? file.type : `image/${fileExt}`] *)
Definition contentTypeOf (file : ImageFile) : string :=
  match file with
  | NativeFile _ type => type
  | Base64File _ name => ("image/" ++ fileExtOf name)%string
  end.

Definition fileDataOf (file : ImageFile) : UploadData :=
  match file with
  | NativeFile name _ => FileBody name
  | Base64File base64 _ => DecodedBase64 base64
  end.

(** [folder = "products"] is the default of the second argument; [now] is
    [Date.now()] and [token] the random suffix. *)
Definition uploadProductImage (file : ImageFile) (folder : option string)
    (now : Z) (token : string) (s : S)
  : Result string * S * list ReadEvent :=
  let folder := match folder with Some f => f | None => "products"%string end in
  let key := storageKey folder now token (fileExtOf (fileName file)) in
  match storage_upload B key (fileDataOf file) (contentTypeOf file) s with
  | (Failure e, s1) =>
      (Rejected (RaisedError "تعذر رفع صورة المنتج"), s1,
       [Upload key (fileDataOf file) (contentTypeOf file) (Some e);
        LogError "خطأ أثناء رفع صورة المنتج:" (message e)])
  | (Data _, s1) =>
      (Resolved (getPublicUrl B key), s1,
       [Upload key (fileDataOf file) (contentTypeOf file) None])
  end.

End Operations.
End Catalog.

(** ** The analytics view *)

Module Dashboard.
Section View.
Context {N : JsNumber}.

Record AnalyticsData : Type := {
  totalRevenue : num;
  totalOrders : nat;
  totalCustomers : nat;
  totalProducts : Z;
  averageOrderValue : num;
  conversionRate : num;
  topProducts : list Analytics.ProductSales;
  salesByMonth : list Analytics.MonthEntry
}.

(** The initial value of the [analyticsData] state. *)
Definition initialData : AnalyticsData :=
  {| totalRevenue := zero; totalOrders := 0; totalCustomers := 0;
     totalProducts := 0%Z; averageOrderValue := zero; conversionRate := zero;
     topProducts := []; salesByMonth := [] |}.

(** What [Promise.all] resolves to: [orderStats.total], [orders.orders],
    [products.total] and [userStats.total]. *)
Record Fetched : Type := {
  orderStats_total : nat;
  fetched_orders : list Analytics.Order;
  products_total : Z;
  userStats_total : nat
}.

(** The argument of [setAnalyticsData]. *)
Definition summarize (f : Fetched) (tza now : Z) : AnalyticsData :=
  {| totalRevenue := Analytics.totalRevenue (fetched_orders f);
     totalOrders := orderStats_total f;
     totalCustomers := userStats_total f;
     totalProducts := products_total f;
     averageOrderValue := Analytics.averageOrderValue (fetched_orders f);
     conversionRate :=
       Analytics.conversionRate (fetched_orders f) (userStats_total f);
     topProducts := Analytics.topProducts (fetched_orders f);
     salesByMonth := Analytics.salesByMonth tza now (fetched_orders f) |}.

Record View : Type := {
  analyticsData : AnalyticsData;
  isLoading : bool
}.

(** [fetchAnalyticsData]: the state of the component once the effect has
    run, and what it wrote with [console.error].  [fetched] is [None] when
    one of the four reads rejects. *)
Definition fetchAnalyticsData (fetched : option Fetched) (tza now : Z) (v : View)
  : View * list string :=
  match fetched with
  | Some f =>
      ({| analyticsData := summarize f tza now; isLoading := false |}, [])
  | None =>
      ({| analyticsData := analyticsData v; isLoading := false |},
       ["Error fetching analytics data:"])
  end.

(** [xaxis.categories] and the series data of the revenue chart. *)
Definition revenueCategories (d : AnalyticsData) : list JsDate.MonthLabel :=
  map Analytics.month (salesByMonth d).

Definition revenueSeries (d : AnalyticsData) : list num :=
  map Analytics.revenue (salesByMonth d).

End View.
End Dashboard.

(** ** Further vocabulary *)

Module Terms.
Section AggregatorTerms.
Context {N : JsNumber}.
Import Analytics.

(** The names of a list in the order of their first occurrence. *)
Definition distinctNames (names : list string) : list string :=
  fold_left (fun seen n => if existsb (String.eqb n) seen then seen else seen ++ [n])
            names [].

Definition hasTimestamp (o : Order) : bool :=
  match created_at o with
  | Some _ => true
  | None => false
  end.

End AggregatorTerms.

(** The row index [r] lies in the window of page [page]. *)
Definition inWindow (page limit r : Z) : Prop :=
  (Catalog.rangeFrom page limit <= r <= Catalog.rangeTo page limit)%Z.

Definition hasDot (name : string) : bool :=
  existsb (Ascii.eqb ".") (list_ascii_of_string name).

(** The queries a run of the reads sent. *)
Definition queriesOf {N : JsNumber} (t : list Catalog.ReadEvent)
  : list (list Catalog.QueryStep) :=
  flat_map (fun e => match e with
                     | Catalog.Query q _ => [q]
                     | _ => []
                     end) t.

(** A date key the [switch] has no case for. *)
Definition unknownDateKey (key : string) : Prop :=
  key <> "today" /\ key <> "week" /\ key <> "month" /\ key <> "year".

(** Two instants of the same local calendar day. *)
Definition sameLocalDay (tza a b : Z) : Prop :=
  JsDate.Day (JsDate.LocalTime tza a) = JsDate.Day (JsDate.LocalTime tza b).

End Terms.

(** ** More concrete data *)

Module MoreFixtures.
Import Analytics Repo Catalog Fixtures.

(** 2024-03-15T12:00:00.000Z *)
Definition noon_2024_03_15 : Z := 1710504000000%Z.

Definition undatedOrder : Analytics.Order :=
  {| Analytics.total_price := 75%Q;
     Analytics.created_at := None;
     Analytics.order_items := None |}.

Definition frontPhoto : ImageFile := Base64File "AAAA" "shirt.front.jpeg".

(** A stored row without images. *)
Definition bareShirt : ProductRow :=
  {| id := Some "p-3";
     name_ar := "قميص"; name_en := "Shirt";
     description_ar := None; description_en := None;
     price := 250%Q; offer_price := None; stock := None;
     image_url := None;
     category_id := None; is_best_seller := None;
     limited_time_offer := None;
     Repo.created_at := None; updated_at := None |}.

(** A backend of the reads that fails what [fails] says and otherwise
    answers with no rows, the stored shirt and a public URL under the
    bucket. *)
Definition readMock (fails : bool) : ReadBackend nat :=
  {| run_query := fun q served =>
       ({| data := None;
           error := if fails then Some boom else None;
           count := None |}, S served);
     select_product := fun pid served =>
       (if fails then Failure boom else Data (productOfRow storedShirt), S served);
     storage_upload := fun key body ctype served =>
       (if fails then Failure boom else Data tt, S served);
     getPublicUrl := bucketUrl |}.

Definition bestSellersOnly : Filters :=
  {| categoryId := Some ""; search := None; date := None;
     isBestSeller := Some false; limitedTimeOffer := None |}.

(** The run of [getProducts] against the failing backend. *)
Definition failedQueryRun : list ReadEvent :=
  [Query (productsQuery 1 10 (Some bestSellersOnly) 0 0 0) (Some boom);
   LogError "خطأ في جلب المنتجات:" "backend failure"].

End MoreFixtures.

(** ** Time zones whose offset changes

    [JsDate.LocalTime] and [JsDate.UTC] take one offset.  The platform takes
    the offset in force at the instant when it reads local time (LocalTZA(t,
    true)) and the offset it assigns to a local time value when it writes
    one back (LocalTZA(t, false)); the two differ across a change of
    daylight saving time. *)

Module JsZone.
Import JsDate JsDateSetters.
Local Open Scope Z_scope.

Record Zone : Type := {
  offsetAt : Z -> Z;        (* LocalTZA(t, true), t an instant *)
  offsetAtLocal : Z -> Z    (* LocalTZA(t, false), t a local time value *)
}.

Definition LocalTimeIn (z : Zone) (t : Z) : Z := t + offsetAt z t.
Definition UTCIn (z : Zone) (t : Z) : Z := t - offsetAtLocal z t.

(** The zone of one fixed offset. *)
Definition fixedZone (tza : Z) : Zone :=
  {| offsetAt := fun _ => tza; offsetAtLocal := fun _ => tza |}.

Definition getDateIn (z : Zone) (t : Z) : Z := DateFromTime (LocalTimeIn z t).
Definition getMonthIn (z : Zone) (t : Z) : Z := MonthFromTime (LocalTimeIn z t).
Definition getFullYearIn (z : Zone) (t : Z) : Z := YearFromTime (LocalTimeIn z t).

Definition setHoursIn (z : Zone) (t hour min sec ms : Z) : Z :=
  let lt := LocalTimeIn z t in
  UTCIn z (MakeDate (Day lt) (MakeTime hour min sec ms)).

Definition setDateIn (z : Zone) (t dt : Z) : Z :=
  let lt := LocalTimeIn z t in
  UTCIn z (MakeDate (MakeDay (YearFromTime lt) (MonthFromTime lt) dt)
                    (TimeWithinDay lt)).

Definition setMonthIn (z : Zone) (t m : Z) : Z :=
  let lt := LocalTimeIn z t in
  UTCIn z (MakeDate (MakeDay (YearFromTime lt) m (DateFromTime lt))
                    (TimeWithinDay lt)).

Definition setFullYearIn (z : Zone) (t year : Z) : Z :=
  let lt := LocalTimeIn z t in
  UTCIn z (MakeDate (MakeDay year (MonthFromTime lt) (DateFromTime lt))
                    (TimeWithinDay lt)).

(** The [switch (filters.date)] of [getProducts] in the zone [z]. *)
Definition windowStartIn (z : Zone) (now startDate : Z) (key : string) : Z :=
  if (key =? "today")%string then setHoursIn z startDate 0 0 0 0
  else if (key =? "week")%string then
    setDateIn z startDate (getDateIn z now - 7)
  else if (key =? "month")%string then
    setMonthIn z startDate (getMonthIn z now - 1)
  else if (key =? "year")%string then
    setFullYearIn z startDate (getFullYearIn z now - 1)
  else startDate.

(** Two instants of the same local calendar day of the zone. *)
Definition sameLocalDayIn (z : Zone) (a b : Z) : Prop :=
  Day (LocalTimeIn z a) = Day (LocalTimeIn z b).

(** Africa/Cairo around the start of daylight saving time in 2024: UTC+2
    until 2024-04-25T22:00:00Z, when the clocks go from 00:00 to 01:00, and
    UTC+3 from then on; a skipped local time is read with the offset before
    the change. *)
Definition cairoDstStart : Z := 1714082400000.

Definition cairo2024 : Zone :=
  {| offsetAt := fun t => if t <? cairoDstStart then 7200000 else 10800000;
     offsetAtLocal := fun t =>
       if t <? cairoDstStart + 10800000 then 7200000 else 10800000 |}.

(** 2024-05-01T12:00:00.000Z and 2024-05-15T12:00:00.000Z *)
Definition noon_2024_05_01 : Z := 1714564800000.
Definition noon_2024_05_15 : Z := 1715774400000.

End JsZone.

(** ** Numbers with a NaN

    An interpretation of the arithmetic with one value that is not a
    number: it absorbs every operation, a division by zero yields it, and
    no comparison with it holds. *)

Module NaN.

Definition lift2 (f : Q -> Q -> Q) (a b : option Q) : option Q :=
  match a, b with
  | Some x, Some y => Some (f x y)
  | _, _ => None
  end.

Definition NanNumber : JsNumber :=
  {| num := option Q;
     zero := Some 0%Q;
     hundred := Some 100%Q;
     add := lift2 Qplus;
     sub := lift2 Qminus;
     mul := lift2 Qmult;
     div := fun a b =>
       match b with
       | Some y => if Qeq_bool y 0 then None else lift2 Qdiv a b
       | None => None
       end;
     of_nat := fun n => Some (inject_Z (Z.of_nat n));
     gt0 := fun a =>
       match a with
       | Some x => negb (Qle_bool x 0)
       | None => false
       end |}.

Definition nanItem (ar : string) (p : option Q) : @Analytics.OrderItem NanNumber :=
  @Analytics.Build_OrderItem NanNumber p (Some 1%Q)
    (Some {| Analytics.name_ar := Some ar; Analytics.name_en := None |}).

(** An order with items A at 1, B at a price that is not a number, C at 2. *)
Definition nanOrder : @Analytics.Order NanNumber :=
  @Analytics.Build_Order NanNumber (Some 3%Q) (Some "2024-03-05T08:00:00+00:00")
    (Some [nanItem "A" (Some 1%Q); nanItem "B" None; nanItem "C" (Some 2%Q)]).

End NaN.

(** ** Vocabulary of the amended statements *)

Module Provisos.
Section Ranking.
Context {N : JsNumber}.
Import Analytics Spec.

(** The sales amounts of the entries of [l] are mutually comparable: "the
    difference is not positive" is total and transitive on them, as it is
    when none of the amounts is NaN. *)
Definition comparableSales (l : list ProductSales) : Prop :=
  (forall a b, In a l -> In b l -> notBelow a b \/ notBelow b a)
  /\ (forall a b c, In a l -> In b l -> In c l ->
        notBelow a b -> notBelow b c -> notBelow a c).

(** The reading of "the top-products output is sorted descending by
    accumulated sales amount" for every fetched order list. *)
Definition alwaysSortedBySales : Prop :=
  forall os : list Order, StronglySorted notBelow (topProducts os).

End Ranking.

Section Deletion.
Context {N : JsNumber}.
Import Repo Spec.

(** The reading of "where the removal of one of the stored image objects
    fails, the remaining removals are still attempted and the product row
    is still deleted": in every run of [deleteProduct] in which a removal
    came back with an error, a removal is requested for every stored image
    that matches the pattern and the row deletion is requested. *)
Definition imageFailuresTolerated : Prop :=
  forall (S : Type) (B : Backend S) (pathname : string -> option string)
         (id : string) (s s1 s' : S) (image_urls : option (list string))
         (out : Outcome unit) (t : list Event),
    select_image_url B id s = (Data image_urls, s1) ->
    deleteProduct B pathname id s = (out, s', t) ->
    (exists paths e, In (Call (StorageRemove paths) (Some e)) t) ->
    requests t
    = SelectImageUrl id
      :: map (fun p => StorageRemove [p])
             (storagePaths pathname (storedUrls image_urls))
      ++ [DeleteProductRow id].

End Deletion.

Import Repo Fixtures.

(** A row whose second image is a bare storage key, between two URLs. *)
Definition tornShirt : ProductRow :=
  {| id := Some "p-4";
     name_ar := "قميص"; name_en := "Shirt";
     description_ar := None; description_en := None;
     price := 250%Q; offer_price := None; stock := None;
     image_url := Some [bucketUrl "products/3-a.png"; "products/3-b.png";
                        bucketUrl "products/3-c.png"];
     category_id := None; is_best_seller := None;
     limited_time_offer := None;
     Repo.created_at := None; updated_at := None |}.

Definition failsFirstImage (r : Request) : bool :=
  match r with
  | StorageRemove [path] => (path =? "products/3-a.png")%string
  | _ => false
  end.

End Provisos.

(* ===================================================================== *)
(** * Part II: theorems *)
(* ===================================================================== *)

Local Open Scope nat_scope.

(** ** Dates *)

Section DateFacts.
Import JsDate.
Local Open Scope Z_scope.

Ltac euclid := Z.to_euclidean_division_equations; lia.

Example civil_from_days_epoch : civil_from_days 0 = (1970, 0, 1).
Proof. reflexivity. Qed.

Example civil_from_days_before_epoch : civil_from_days (-1) = (1969, 11, 31).
Proof. reflexivity. Qed.

Example civil_from_days_leap_day : civil_from_days 19782 = (2024, 1, 29).
Proof. reflexivity. Qed.

Example toISOString_date_noon :
  toISOString_date Fixtures.noon_2024_03_31 = "2024-03-31"%string.
Proof. vm_compute. reflexivity. Qed.

(** [setMonth(1)] on 31 March 2024 asks for 31 February, which is 2 March. *)
Example setMonth_february_from_31 :
  toISOString_date (setMonth 0 Fixtures.noon_2024_03_31 1) = "2024-03-02"%string.
Proof. vm_compute. reflexivity. Qed.

Lemma yoe_of_doe (yoe doy : Z) :
  0 <= yoe < 400 -> 0 <= doy <= 364 ->
  let doe := yoe * 365 + yoe / 4 - yoe / 100 + doy in
  (doe - doe / 1460 + doe / 36524 - doe / 146096) / 365 = yoe.
Proof. intros Hy Hd doe. subst doe. euclid. Qed.

Lemma doy_bounds (doe : Z) :
  0 <= doe < 146097 ->
  let yoe := (doe - doe / 1460 + doe / 36524 - doe / 146096) / 365 in
  let doy := doe - (365 * yoe + yoe / 4 - yoe / 100) in
  0 <= yoe < 400 /\ 0 <= doy <= 365.
Proof. intros H yoe doy. subst doy yoe. euclid. Qed.

Lemma mp_bounds (doy : Z) : 0 <= doy <= 365 -> 0 <= (5 * doy + 2) / 153 <= 11.
Proof. intros. euclid. Qed.

Lemma month_start (mp : Z) :
  0 <= mp <= 11 -> forall d, 1 <= d <= 28 ->
  (5 * ((153 * mp + 2) / 5 + d - 1) + 2) / 153 = mp.
Proof. intros. euclid. Qed.

Lemma days_from_civil_day (y m d : Z) :
  days_from_civil y m d = days_from_civil y m 1 + d - 1.
Proof. unfold days_from_civil. cbv zeta. lia. Qed.

(** The civil date of a day number is a date of that day number, and its
    month lies in 0..11. *)
Lemma civil_from_days_inverse (n : Z) :
  let '(y, m, d) := civil_from_days n in
  days_from_civil y m d = n /\ 0 <= m <= 11.
Proof.
  unfold civil_from_days. cbv zeta.
  set (z := n + 719468). set (era := z / 146097). set (doe := z - era * 146097).
  assert (Hdoe : 0 <= doe < 146097) by (subst doe era; euclid).
  pose proof (doy_bounds doe Hdoe) as Hb. cbv zeta in Hb.
  set (yoe := (doe - doe / 1460 + doe / 36524 - doe / 146096) / 365) in *.
  set (doy := doe - (365 * yoe + yoe / 4 - yoe / 100)) in *.
  destruct Hb as [Hyoe Hdoy].
  pose proof (mp_bounds doy Hdoy) as Hmp.
  set (mp := (5 * doy + 2) / 153) in *.
  unfold days_from_civil. cbv zeta.
  destruct (Z.ltb_spec mp 10) as [Hlt | Hge].
  - destruct (Z.ltb_spec (mp + 2) 2) as [Hc | Hc]; [lia |].
    replace (yoe + era * 400 + 0) with (yoe + era * 400) by lia.
    replace ((yoe + era * 400) / 400) with era by euclid.
    replace (yoe + era * 400 - era * 400) with yoe by lia.
    replace (mp + 2 - 2) with mp by lia.
    subst doy doe z. lia.
  - destruct (Z.ltb_spec (mp - 10) 2) as [Hc | Hc]; [| lia].
    replace (yoe + era * 400 + 1 - 1) with (yoe + era * 400) by lia.
    replace ((yoe + era * 400) / 400) with era by euclid.
    replace (yoe + era * 400 - era * 400) with yoe by lia.
    replace (mp - 10 + 10) with mp by lia.
    subst doy doe z. lia.
Qed.

(** A day that every month has is the civil date of its day number. *)
Lemma days_from_civil_inverse (y m d : Z) :
  0 <= m <= 11 -> 1 <= d <= 28 ->
  civil_from_days (days_from_civil y m d) = (y, m, d).
Proof.
  intros Hm Hd. unfold days_from_civil. cbv zeta.
  set (y' := if m <? 2 then y - 1 else y).
  set (mp := if m <? 2 then m + 10 else m - 2).
  assert (Hmp : 0 <= mp <= 11) by (subst mp; destruct (Z.ltb_spec m 2); lia).
  set (era := y' / 400). set (yoe := y' - era * 400).
  assert (Hyoe : 0 <= yoe < 400) by (subst yoe era; euclid).
  set (doy := (153 * mp + 2) / 5 + d - 1).
  assert (Hdoy : 0 <= doy <= 364) by (subst doy; euclid).
  set (doe := yoe * 365 + yoe / 4 - yoe / 100 + doy).
  assert (Hdoe : 0 <= doe < 146097) by (subst doe; euclid).
  unfold civil_from_days. cbv zeta.
  replace (era * 146097 + doe - 719468 + 719468) with (era * 146097 + doe) by lia.
  replace ((era * 146097 + doe) / 146097) with era by euclid.
  replace (era * 146097 + doe - era * 146097) with doe by lia.
  assert (Hy : (doe - doe / 1460 + doe / 36524 - doe / 146096) / 365 = yoe)
    by exact (yoe_of_doe yoe doy Hyoe Hdoy).
  rewrite Hy.
  replace (doe - (365 * yoe + yoe / 4 - yoe / 100)) with doy by (subst doe; lia).
  assert (Hmonth : (5 * doy + 2) / 153 = mp) by exact (month_start mp Hmp d Hd).
  rewrite Hmonth.
  replace (doy - (153 * mp + 2) / 5 + 1) with d by (subst doy; lia).
  subst mp y'. destruct (Z.ltb_spec m 2) as [Hlt | Hge].
  - destruct (Z.ltb_spec (m + 10) 10); [lia |].
    replace (m + 10 - 10) with m by lia.
    destruct (Z.ltb_spec m 2); [| lia].
    do 2 f_equal. subst yoe. lia.
  - destruct (Z.ltb_spec (m - 2) 10); [| lia].
    replace (m - 2 + 2) with m by lia.
    destruct (Z.ltb_spec m 2); [lia |].
    do 2 f_equal. subst yoe. lia.
Qed.

Lemma Day_MakeDate (day time : Z) :
  0 <= time < msPerDay ->
  Day (MakeDate day time) = day /\ TimeWithinDay (MakeDate day time) = time.
Proof.
  unfold Day, TimeWithinDay, MakeDate, msPerDay. intros H. split; euclid.
Qed.

Lemma TimeWithinDay_range (t : Z) : 0 <= TimeWithinDay t < msPerDay.
Proof. unfold TimeWithinDay, msPerDay. euclid. Qed.

(** [date.setMonth(date.getMonth())] leaves the Date as it is. *)
Lemma setMonth_getMonth (tza t : Z) : setMonth tza t (getMonth tza t) = t.
Proof.
  unfold setMonth, getMonth, MakeDay, YearFromTime, MonthFromTime, DateFromTime.
  cbv zeta. set (lt := LocalTime tza t).
  pose proof (civil_from_days_inverse (Day lt)) as H.
  destruct (civil_from_days (Day lt)) as [[y m] d]. simpl. destruct H as [H Hm].
  replace (m / 12) with 0 by euclid. replace (m mod 12) with m by euclid.
  replace (y + 0) with y by lia.
  rewrite <- days_from_civil_day, H.
  unfold UTC, MakeDate, Day, TimeWithinDay, msPerDay. subst lt. unfold LocalTime.
  euclid.
Qed.

(** On the days 1 to 28, [setMonth(m)] moves the local date to month
    [m mod 12] of the year carried by [m / 12], same day. *)
Lemma setMonth_regular (tza t m : Z) :
  1 <= DateFromTime (LocalTime tza t) <= 28 ->
  civil_from_days (Day (LocalTime tza (setMonth tza t m)))
  = (YearFromTime (LocalTime tza t) + m / 12, m mod 12,
     DateFromTime (LocalTime tza t)).
Proof.
  intros Hd. unfold setMonth. cbv zeta.
  set (lt := LocalTime tza t) in *.
  unfold LocalTime at 1, UTC.
  replace (MakeDate (MakeDay (YearFromTime lt) m (DateFromTime lt))
                    (TimeWithinDay lt) - tza + tza)
    with (MakeDate (MakeDay (YearFromTime lt) m (DateFromTime lt))
                   (TimeWithinDay lt)) by lia.
  rewrite (proj1 (Day_MakeDate _ _ (TimeWithinDay_range lt))).
  unfold MakeDay. cbv zeta. rewrite <- days_from_civil_day.
  apply days_from_civil_inverse; [euclid | exact Hd].
Qed.

End DateFacts.

(** ** The analytics aggregator *)

Section AggregatorFacts.
Context {N : JsNumber}.
Import Analytics Spec.

(** *** Revenue, average and conversion rate *)

Lemma totalRevenue_nil : totalRevenue [] = zero.
Proof. reflexivity. Qed.

Lemma totalRevenue_snoc (os : list Order) (o : Order) :
  totalRevenue (os ++ [o]) = add (totalRevenue os) (total_price o).
Proof. unfold totalRevenue. rewrite fold_left_app. reflexivity. Qed.

(** C4: the average order value is the total revenue divided by the number
    of fetched orders when there is at least one order and 0 when there is
    none, the total revenue being the sum of [total_price] over the fetched
    orders taken left to right from 0. *)
Theorem averageOrderValue_spec (os : list Order) :
  (0 < length os ->
     averageOrderValue os = div (totalRevenue os) (of_nat (length os)))
  /\ (os = [] -> averageOrderValue os = zero)
  /\ totalRevenue [] = zero
  /\ (forall os' o, totalRevenue (os' ++ [o]) = add (totalRevenue os') (total_price o)).
Proof.
  repeat split.
  - intros Hpos. unfold averageOrderValue.
    destruct (Nat.ltb_spec 0 (length os)) as [_ | Hle]; [reflexivity | lia].
  - intros ->. reflexivity.
  - intros os' o. apply totalRevenue_snoc.
Qed.

(** C5: the conversion rate is 0 when the user total is 0 and otherwise the
    number of fetched orders divided by the user total, times 100. *)
Theorem conversionRate_spec (os : list Order) (userTotal : nat) :
  (userTotal = 0 -> conversionRate os userTotal = zero)
  /\ (userTotal <> 0 ->
        conversionRate os userTotal
        = mul (div (of_nat (length os)) (of_nat userTotal)) hundred).
Proof.
  unfold conversionRate. split.
  - intros ->. reflexivity.
  - intros Hne. destruct (Nat.ltb_spec 0 userTotal) as [_ | Hle]; [reflexivity | lia].
Qed.

(** *** Sales by month: the shape of the series *)

Lemma salesByMonth_length (tza now : Z) (os : list Order) :
  length (salesByMonth tza now os) = 6.
Proof. reflexivity. Qed.

(** The series lists the buckets of iterations 5, 4, 3, 2, 1, 0. *)
Lemma salesByMonth_buckets (tza now : Z) (os : list Order) :
  salesByMonth tza now os = map (monthBucket tza now os) [5; 4; 3; 2; 1; 0].
Proof. reflexivity. Qed.

(** An order is counted in bucket [i] exactly when its timestamp starts with
    the bucket's key. *)
Lemma monthBucket_orders (tza now : Z) (os : list Order) (i : nat) :
  orders (monthBucket tza now os i)
  = length (filter (fun o => match created_at o with
                             | Some ts => prefix (monthKey tza now i) ts
                             | None => false
                             end) os).
Proof. reflexivity. Qed.

Lemma monthBucket_revenue (tza now : Z) (os : list Order) (i : nat) :
  revenue (monthBucket tza now os i)
  = totalRevenue (filter (inMonth (monthKey tza now i)) os).
Proof. reflexivity. Qed.

(** Iteration 0 leaves today's Date as it is. *)
Lemma bucketDate_now (tza now : Z) : bucketDate tza now 0 = now.
Proof.
  unfold bucketDate. simpl Z.of_nat. rewrite Z.sub_0_r. apply setMonth_getMonth.
Qed.

(** X1: the last entry is the bucket of today's Date itself: its label is the
    current local month and its key the current UTC month. *)
Lemma salesByMonth_last_is_current (tza now : Z) (os : list Order) :
  exists older,
    salesByMonth tza now os = older ++ [monthBucket tza now os 0]
    /\ length older = 5
    /\ month (monthBucket tza now os 0)
       = JsDate.toLocaleDateString_month_year tza now
    /\ monthKey tza now 0 = substring 0 7 (JsDate.toISOString_date now).
Proof.
  exists (map (monthBucket tza now os) [5; 4; 3; 2; 1]).
  repeat split.
  - unfold monthBucket. simpl. rewrite bucketDate_now. reflexivity.
  - unfold monthKey. rewrite bucketDate_now. reflexivity.
Qed.

(** On the days 1 to 28 of the local month, the Date of iteration [i] falls
    on the same day of the month [i] months earlier. *)
Lemma bucketDate_regular (tza now : Z) (i : nat) :
  (1 <= JsDate.DateFromTime (JsDate.LocalTime tza now) <= 28)%Z ->
  JsDate.civil_from_days (JsDate.Day (JsDate.LocalTime tza (bucketDate tza now i)))
  = (JsDate.label_year (monthsBefore (JsDate.toLocaleDateString_month_year tza now) i),
     JsDate.label_month (monthsBefore (JsDate.toLocaleDateString_month_year tza now) i),
     JsDate.DateFromTime (JsDate.LocalTime tza now)).
Proof. intros Hd. unfold bucketDate. apply setMonth_regular, Hd. Qed.

(** On the days 1 to 28 of the local month, entry [i] is labelled with the
    month [i] months before the current one. *)
Lemma monthBucket_regular_label (tza now : Z) (os : list Order) (i : nat) :
  (1 <= JsDate.DateFromTime (JsDate.LocalTime tza now) <= 28)%Z ->
  month (monthBucket tza now os i)
  = monthsBefore (JsDate.toLocaleDateString_month_year tza now) i.
Proof.
  intros Hd. unfold monthBucket, monthsBefore. simpl.
  unfold JsDate.toLocaleDateString_month_year at 1.
  unfold JsDate.YearFromTime at 1, JsDate.MonthFromTime at 1.
  rewrite (bucketDate_regular tza now i Hd). reflexivity.
Qed.

(** X2: on the days 1 to 28 of the local month the six labels are, in order,
    the months 5 to 0 months before the current one. *)
Lemma salesByMonth_regular_labels (tza now : Z) (os : list Order) :
  (1 <= JsDate.DateFromTime (JsDate.LocalTime tza now) <= 28)%Z ->
  map month (salesByMonth tza now os)
  = map (monthsBefore (JsDate.toLocaleDateString_month_year tza now))
        [5; 4; 3; 2; 1; 0].
Proof.
  intros Hd. rewrite salesByMonth_buckets, map_map.
  apply map_ext. intros i. apply monthBucket_regular_label, Hd.
Qed.

Lemma LocalTime_utc (t : Z) : JsDate.LocalTime 0 t = t.
Proof. unfold JsDate.LocalTime. apply Z.add_0_r. Qed.

(** In the UTC time zone, on those days, the key of entry [i] is the
    [YYYY-MM] of that month. *)
Lemma monthKey_regular_utc (now : Z) (i : nat) (l : JsDate.MonthLabel) :
  (1 <= JsDate.DateFromTime now <= 28)%Z ->
  l = monthsBefore (JsDate.toLocaleDateString_month_year 0 now) i ->
  (0 <= JsDate.label_year l <= 9999)%Z ->
  monthKey 0 now i
  = (JsDate.pad4 (JsDate.label_year l) ++ "-"
       ++ JsDate.pad2 (JsDate.label_month l + 1))%string.
Proof.
  intros Hd Hl [Hy0 Hy1].
  rewrite <- (LocalTime_utc now) in Hd.
  pose proof (bucketDate_regular 0 now i Hd) as Hc.
  rewrite <- Hl, LocalTime_utc in Hc.
  unfold monthKey, JsDate.toISOString_date,
    JsDate.YearFromTime, JsDate.MonthFromTime, JsDate.DateFromTime.
  rewrite Hc. cbn [fst snd].
  apply Z.leb_le in Hy0, Hy1. rewrite Hy0, Hy1. reflexivity.
Qed.

(** *** Top products: name resolution *)

Lemma truthy_present (o : option string) (s : string) :
  truthy o = Some s <-> present o s.
Proof.
  unfold truthy, present. destruct o as [s' |].
  - destruct (String.eqb_spec s' "") as [-> | Hne]; split.
    + discriminate.
    + intros [Heq Hs]. injection Heq as <-. contradiction.
    + intros Heq. injection Heq as <-. auto.
    + intros [Heq _]. exact Heq.
  - split; [discriminate | intros [Heq _]; discriminate].
Qed.

Lemma truthy_absent (o : option string) : truthy o = None <-> absent o.
Proof.
  unfold truthy, absent. destruct o as [s' |].
  - destruct (String.eqb_spec s' "") as [-> | Hne]; split.
    + intros _. right. reflexivity.
    + reflexivity.
    + discriminate.
    + intros [Heq | Heq]; [discriminate | injection Heq as ->; contradiction].
  - split; [intros _; left |]; reflexivity.
Qed.

Lemma productName_resolution (it : OrderItem) :
  (forall s, present (item_name_ar it) s -> productName it = s)
  /\ (absent (item_name_ar it) ->
      forall s, present (item_name_en it) s -> productName it = s)
  /\ (absent (item_name_ar it) -> absent (item_name_en it) ->
      productName it = "Unknown Product").
Proof.
  unfold productName. repeat split.
  - intros s Hs. apply truthy_present in Hs. rewrite Hs. reflexivity.
  - intros Har s Hs. apply truthy_absent in Har. apply truthy_present in Hs.
    rewrite Har, Hs. reflexivity.
  - intros Har Hen. apply truthy_absent in Har. apply truthy_absent in Hen.
    rewrite Har, Hen. reflexivity.
Qed.

(** *** Top products: the accumulation *)

Lemma productSales_allItems (os : list Order) :
  productSales os = fold_left (fun m it => recordSale it m) (allItems os) [].
Proof.
  unfold productSales, allItems. generalize (@nil ProductSales) as m.
  induction os as [| o os IH]; intros m; simpl.
  - reflexivity.
  - rewrite fold_left_app. apply IH.
Qed.

Lemma recordSale_names (x : OrderItem) (m : list ProductSales) :
  (In (productName x) (map name m)
   /\ map name (recordSale x m) = map name m)
  \/ (~ In (productName x) (map name m)
      /\ map name (recordSale x m) = map name m ++ [productName x]).
Proof.
  induction m as [| e m IH]; simpl.
  - right. split; [tauto | reflexivity].
  - destruct (String.eqb_spec (name e) (productName x)) as [Heq | Hne]; simpl.
    + left. split; [left; exact Heq | reflexivity].
    + destruct IH as [[Hin ->] | [Hnin ->]].
      * left. split; [right; exact Hin | reflexivity].
      * right. split; [intros [H | H]; contradiction | reflexivity].
Qed.

Lemma recordSale_NoDup (x : OrderItem) (m : list ProductSales) :
  NoDup (map name m) -> NoDup (map name (recordSale x m)).
Proof.
  intros Hnd. destruct (recordSale_names x m) as [[_ ->] | [Hnin ->]].
  - exact Hnd.
  - apply NoDup_app; [exact Hnd | constructor; [intros [] | constructor] |].
    intros s Hs [<- | []]. contradiction.
Qed.

(** What [recordSale] leaves in the map: the untouched entries of other
    names, and one entry of the item's name, either the old one increased
    or a fresh one when the name was not a key. *)
Lemma recordSale_In (x : OrderItem) (m : list ProductSales) (e' : ProductSales) :
  NoDup (map name m) ->
  In e' (recordSale x m) ->
  (In e' m /\ name e' <> productName x)
  \/ (name e' = productName x
      /\ ((exists e, In e m /\ name e = name e'
                     /\ sales e' = add (sales e) (mul (item_price x) (item_quantity x))
                     /\ quantity e' = add (quantity e) (item_quantity x))
          \/ (~ In (productName x) (map name m)
              /\ sales e' = mul (item_price x) (item_quantity x)
              /\ quantity e' = item_quantity x))).
Proof.
  induction m as [| e m IH]; simpl; intros Hnd.
  - intros [<- | []]. right. simpl. split; [reflexivity |]. right. auto.
  - apply NoDup_cons_iff in Hnd as [Hhead Hnd].
    destruct (String.eqb_spec (name e) (productName x)) as [Heq | Hne].
    + intros [<- | Hin].
      * right. simpl. split; [exact Heq |]. left. exists e. auto.
      * left. split; [right; exact Hin |].
        intros Heq'. apply Hhead. rewrite Heq, <- Heq'. apply in_map, Hin.
    + intros [<- | Hin].
      * left. split; [left; reflexivity | exact Hne].
      * destruct (IH Hnd Hin) as [[Hm Hn] | [Hn [(e0 & He0 & Hrest) | (Hnin & Hrest)]]].
        -- left. split; [right; exact Hm | exact Hn].
        -- right. split; [exact Hn |]. left. exists e0. split; [right; exact He0 | exact Hrest].
        -- right. split; [exact Hn |]. right. split; [| exact Hrest].
           intros [H | H]; contradiction.
Qed.

Lemma filter_snoc {A} (f : A -> bool) (l : list A) (x : A) :
  filter f (l ++ [x]) = filter f l ++ (if f x then [x] else []).
Proof. rewrite filter_app. reflexivity. Qed.

Lemma filter_none {A} (f : A -> bool) (l : list A) :
  (forall x, In x l -> f x = false) -> filter f l = [].
Proof.
  induction l as [| a l IH]; simpl; intros H; [reflexivity |].
  rewrite (H a (or_introl eq_refl)). apply IH. intros x Hx. apply H. right. exact Hx.
Qed.

Lemma accumulated_step (items : list OrderItem) (m : list ProductSales) (x : OrderItem) :
  accumulated items m -> accumulated (items ++ [x]) (recordSale x m).
Proof.
  intros (Hnd & Hacc & Hcov). split; [| split].
  - apply recordSale_NoDup, Hnd.
  - intros e' Hin.
    destruct (recordSale_In x m e' Hnd Hin)
      as [[Hm Hn] | [Hn [(e0 & He0 & Hname & Hs & Hq) | (Hnin & Hs & Hq)]]].
    + destruct (Hacc e' Hm) as (first & rest & Hf & Hs & Hq).
      exists first, rest. rewrite filter_snoc.
      destruct (String.eqb_spec (productName x) (name e')) as [Heq | _];
        [symmetry in Heq; contradiction |].
      rewrite app_nil_r. auto.
    + destruct (Hacc e0 He0) as (first & rest & Hf & Hs0 & Hq0).
      exists first, (rest ++ [x]). rewrite filter_snoc, <- Hname, Hf.
      rewrite Hname, Hn, String.eqb_refl. split; [reflexivity |].
      unfold salesOver, quantityOver in *. rewrite !fold_left_app. simpl.
      rewrite <- Hs0, <- Hq0. auto.
    + exists x, []. rewrite filter_snoc, Hn, String.eqb_refl.
      rewrite filter_none; [auto |].
      intros it Hit. apply String.eqb_neq. intros Heq. apply Hnin.
      rewrite <- Heq. apply Hcov, Hit.
  - intros it Hit. apply in_app_or in Hit as [Hit | [<- | []]].
    + destruct (recordSale_names x m) as [[_ ->] | [_ ->]];
        [| apply in_or_app; left]; apply Hcov, Hit.
    + destruct (recordSale_names x m) as [[Hin ->] | [_ ->]];
        [exact Hin | apply in_or_app; right; left; reflexivity].
Qed.

Lemma accumulated_fold (items : list OrderItem) :
  accumulated items (fold_left (fun m it => recordSale it m) items []).
Proof.
  induction items as [| x items IH] using rev_ind.
  - split; [constructor | split; intros ? []].
  - rewrite fold_left_app. simpl. apply accumulated_step, IH.
Qed.

Lemma productSales_accumulated (os : list Order) :
  accumulated (allItems os) (productSales os).
Proof. rewrite productSales_allItems. apply accumulated_fold. Qed.

(** *** Top products: the ranking *)

Lemma insertBy_Permutation cmp (x : ProductSales) (l : list ProductSales) :
  Permutation (insertBy cmp x l) (x :: l).
Proof.
  induction l as [| y l IH]; simpl; [reflexivity |].
  destruct (gt0 (cmp x y)); [| reflexivity].
  rewrite IH. apply perm_swap.
Qed.

Lemma sortBy_Permutation cmp (l : list ProductSales) :
  Permutation (sortBy cmp l) l.
Proof.
  induction l as [| x l IH]; simpl; [reflexivity |].
  rewrite insertBy_Permutation. constructor. exact IH.
Qed.



Lemma StronglySorted_firstn {A} (R : A -> A -> Prop) (n : nat) (l : list A) :
  StronglySorted R l -> StronglySorted R (firstn n l).
Proof.
  revert l. induction n as [| n IH]; intros [| a l] Hs; simpl; try constructor.
  - apply IH. apply StronglySorted_inv in Hs. tauto.
  - apply StronglySorted_inv in Hs as [_ Ha].
    rewrite Forall_forall in *. intros z Hz. apply Ha.
    rewrite <- (firstn_skipn n l). apply in_or_app. left. exact Hz.
Qed.

Lemma In_firstn {A} (n : nat) (l : list A) (a : A) :
  In a (firstn n l) -> In a l.
Proof.
  intros H. rewrite <- (firstn_skipn n l). apply in_or_app. left. exact H.
Qed.

Lemma NoDup_firstn {A} (n : nat) (l : list A) : NoDup l -> NoDup (firstn n l).
Proof.
  intros H. rewrite <- (firstn_skipn n l) in H. apply NoDup_app_remove_r in H. exact H.
Qed.

(** *** Top products: the ranking of comparable amounts *)

Lemma comparableSales_incl (l l' : list ProductSales) :
  (forall e, In e l' -> In e l) ->
  Provisos.comparableSales l -> Provisos.comparableSales l'.
Proof.
  intros Hincl [Htotal Htrans]. split.
  - intros a b Ha Hb. apply Htotal; auto.
  - intros a b c Ha Hb Hc. apply Htrans; auto.
Qed.

Lemma insertBy_sorted_on (x : ProductSales) (l : list ProductSales) :
  Provisos.comparableSales (x :: l) ->
  StronglySorted notBelow l -> StronglySorted notBelow (insertBy bySalesDesc x l).
Proof.
  induction l as [| y l IH]; simpl; intros Hc Hs.
  - repeat constructor.
  - apply StronglySorted_inv in Hs as [Hs Hy].
    destruct Hc as [Htotal Htrans].
    unfold bySalesDesc at 1. destruct (gt0 (sub (sales y) (sales x))) eqn:Hgt.
    + constructor.
      * apply IH; [| exact Hs].
        apply (comparableSales_incl (x :: y :: l)); [| split; assumption].
        intros e [<- | He]; [left; reflexivity | right; right; exact He].
      * apply (Permutation_Forall (x := x :: l));
          [symmetry; apply insertBy_Permutation |].
        constructor; [| exact Hy].
        destruct (Htotal x y) as [Hxy | Hyx];
          [left; reflexivity | right; left; reflexivity | | exact Hyx].
        unfold notBelow in Hxy. congruence.
    + constructor; [constructor; assumption |].
      constructor; [exact Hgt |].
      rewrite Forall_forall in *. intros z Hz.
      apply (Htrans x y z);
        [left; reflexivity | right; left; reflexivity | right; right; exact Hz
        | exact Hgt | apply Hy, Hz].
Qed.

Lemma sortBy_sorted_on (l : list ProductSales) :
  Provisos.comparableSales l -> StronglySorted notBelow (sortBy bySalesDesc l).
Proof.
  induction l as [| x l IH]; simpl; intros Hc; [constructor |].
  apply insertBy_sorted_on.
  - apply (comparableSales_incl (x :: l)); [| exact Hc].
    intros e [<- | He]; [left; reflexivity | right].
    apply (Permutation_in e (sortBy_Permutation bySalesDesc l)), He.
  - apply IH. apply (comparableSales_incl (x :: l)); [| exact Hc].
    intros e He. right. exact He.
Qed.

(** C3: the top-products list has at most 5 entries and no display name
    twice, and each entry carries, for its name, [price * quantity] and
    [quantity] accumulated over all items of all orders that resolve to
    that name.  Together with the entries it drops it holds every display
    name met, each once; it keeps five of them, or all of them when there
    are fewer; and when the accumulated sales amounts are mutually
    comparable, the kept entries followed by the dropped ones are sorted
    descending by sales amount.  The name of an item is its Arabic name if
    present, else its English name, else ["Unknown Product"]. *)
Theorem topProducts_spec (os : list Order) :
  length (topProducts os) <= 5
  /\ NoDup (map name (topProducts os))
  /\ (forall e, In e (topProducts os) -> accumulates (allItems os) e)
  /\ (exists dropped,
        length (topProducts os) = Nat.min 5 (length (topProducts os ++ dropped))
        /\ NoDup (map name (topProducts os ++ dropped))
        /\ (forall it, In it (allItems os) ->
                       In (productName it) (map name (topProducts os ++ dropped)))
        /\ (forall e, In e dropped -> accumulates (allItems os) e)
        /\ (Provisos.comparableSales (topProducts os ++ dropped) ->
            StronglySorted notBelow (topProducts os ++ dropped)))
  /\ (forall it,
        (forall s, present (item_name_ar it) s -> productName it = s)
        /\ (absent (item_name_ar it) ->
            forall s, present (item_name_en it) s -> productName it = s)
        /\ (absent (item_name_ar it) -> absent (item_name_en it) ->
            productName it = "Unknown Product")).
Proof.
  destruct (productSales_accumulated os) as (Hnd & Hacc & Hcov).
  pose proof (sortBy_Permutation bySalesDesc (productSales os)) as Hperm.
  assert (Hnd' : NoDup (map name (sortBy bySalesDesc (productSales os)))).
  { apply (Permutation_NoDup (l := map name (productSales os))); [| exact Hnd].
    apply Permutation_map. symmetry. exact Hperm. }
  unfold topProducts. repeat apply conj.
  - apply firstn_le_length.
  - rewrite <- firstn_map. apply NoDup_firstn, Hnd'.
  - intros e He. apply Hacc. apply In_firstn in He.
    apply (Permutation_in e Hperm), He.
  - exists (skipn 5 (sortBy bySalesDesc (productSales os))).
    rewrite firstn_skipn. repeat apply conj.
    + apply length_firstn.
    + exact Hnd'.
    + intros it Hit.
      apply (Permutation_in (l := map name (productSales os)));
        [apply Permutation_map; symmetry; exact Hperm | apply Hcov, Hit].
    + intros e He. apply Hacc. apply (Permutation_in e Hperm).
      rewrite <- (firstn_skipn 5 (sortBy bySalesDesc (productSales os))).
      apply in_or_app. right. exact He.
    + intros Hc. apply sortBy_sorted_on.
      apply (comparableSales_incl (sortBy bySalesDesc (productSales os)));
        [| exact Hc].
      intros e He. apply (Permutation_in e (Permutation_sym Hperm)), He.
  - apply productName_resolution.
Qed.

End AggregatorFacts.

(** *** The aggregator on exact rationals *)

Section AggregatorRuns.
Import Analytics Spec Fixtures.

Lemma gt0_sub_Qlt (x y : Q) : gt0 (sub y x) = true <-> (x < y)%Q.
Proof.
  simpl. rewrite negb_true_iff, <- not_true_iff_false, Qle_bool_iff.
  split; intros H.
  - apply Qnot_le_lt in H. apply (Qplus_lt_l _ _ (- x)). 
    rewrite Qplus_opp_r. exact H.
  - apply Qlt_not_le. apply (Qplus_lt_l _ _ (- x)) in H.
    rewrite Qplus_opp_r in H. exact H.
Qed.

Lemma gt0_sub_Qle (x y : Q) : gt0 (sub y x) = false <-> (y <= x)%Q.
Proof.
  rewrite <- not_true_iff_false, gt0_sub_Qlt. split.
  - apply Qnot_lt_le.
  - apply Qle_not_lt.
Qed.

Lemma Q_consistentDifference : consistentDifference.
Proof.
  split.
  - intros x y H. apply gt0_sub_Qlt in H. apply gt0_sub_Qle.
    apply Qlt_le_weak, H.
  - intros x y z Hxy Hyz. apply gt0_sub_Qle in Hxy, Hyz. apply gt0_sub_Qle.
    apply (Qle_trans _ y); assumption.
Qed.

(** The scenario of the specification's testable properties: one order of
    100 with one item A at 50 x 2, and two users. *)
Example scenario_metrics :
  totalRevenue [scenarioOrder] = 100%Q
  /\ (averageOrderValue [scenarioOrder] == 100)%Q
  /\ (conversionRate [scenarioOrder] 2 == 50)%Q
  /\ topProducts [scenarioOrder]
     = [{| name := "A"; sales := 100%Q; quantity := 2%Q |}].
Proof. repeat split. Qed.

(** The display name falls through an empty Arabic name, and equal names
    share one entry. *)
Example mixed_topProducts :
  topProducts [mixedOrder; scenarioOrder]
  = [{| name := "A"; sales := 205%Q; quantity := 5%Q |};
     {| name := "Unknown Product"; sales := 200%Q; quantity := 1%Q |};
     {| name := "B"; sales := 10%Q; quantity := 1%Q |}].
Proof. vm_compute. reflexivity. Qed.

Lemma averageOrderValue_witness :
  0 < length [scenarioOrder]
  /\ averageOrderValue [scenarioOrder]
     = div (totalRevenue [scenarioOrder]) (of_nat (length [scenarioOrder])).
Proof.
  split; [simpl; lia |].
  apply (proj1 (averageOrderValue_spec [scenarioOrder])). simpl; lia.
Defined.

Lemma conversionRate_witness :
  2 <> 0
  /\ conversionRate [scenarioOrder] 2
     = mul (div (of_nat (length [scenarioOrder])) (of_nat 2)) hundred.
Proof.
  split; [lia |].
  apply (proj2 (conversionRate_spec [scenarioOrder] 2)). lia.
Defined.

Lemma Q_comparableSales (l : list ProductSales) : Provisos.comparableSales l.
Proof.
  destruct Q_consistentDifference as [Hasym Htrans]. split.
  - intros a b _ _. unfold notBelow.
    destruct (gt0 (sub (sales b) (sales a))) eqn:Hgt; [right | left; reflexivity].
    apply Hasym, Hgt.
  - intros a b c _ _ _. unfold notBelow. apply Htrans.
Qed.

Lemma topProducts_witness :
  exists dropped,
    Provisos.comparableSales (topProducts [mixedOrder; scenarioOrder] ++ dropped)
    /\ StronglySorted notBelow (topProducts [mixedOrder; scenarioOrder] ++ dropped)
    /\ length (topProducts [mixedOrder; scenarioOrder])
       = Nat.min 5 (length (topProducts [mixedOrder; scenarioOrder] ++ dropped)).
Proof.
  destruct (topProducts_spec [mixedOrder; scenarioOrder])
    as (_ & _ & _ & (dropped & Hlen & _ & _ & _ & Hsorted) & _).
  exists dropped. split; [apply Q_comparableSales |].
  split; [apply Hsorted, Q_comparableSales | exact Hlen].
Defined.

(** C3 as stated fails when an amount is not a number: with items A at 1,
    B at a price that is NaN and C at 2, every comparison with B's amount
    gives NaN, the sort leaves the entries where they are, and A stands
    before C although C sells more.  (The engine's sort leaves this array
    as it is as well: it takes a NaN of the comparator for 0.) *)
Lemma topProducts_unsorted_with_NaN :
  map sales (@topProducts NaN.NanNumber [NaN.nanOrder])
  = [Some 1%Q; None; Some 2%Q]
  /\ ~ @Provisos.alwaysSortedBySales NaN.NanNumber.
Proof.
  split; [vm_compute; reflexivity |].
  intros H. specialize (H [NaN.nanOrder]).
  apply StronglySorted_inv in H as [_ H].
  apply Forall_inv_tail, Forall_inv in H.
  vm_compute in H. discriminate.
Qed.

(** *** Sales by month at the end of a 31-day month *)

(** C1: at 2024-03-31T12:00Z (time zone UTC) [setMonth] overflows into the
    following month for the months without a 31st day: the six keys are
    2023-10, 2023-12, 2023-12, 2024-01, 2024-03, 2024-03, so no bucket
    covers February 2024 or November 2023, March 2024 and December 2023
    are covered twice, an order of February is counted nowhere and an
    order of March is counted in the last two entries. *)
Theorem salesByMonth_month_end_overflow :
  map (monthKey 0 noon_2024_03_31) [5; 4; 3; 2; 1; 0]
  = ["2023-10"; "2023-12"; "2023-12"; "2024-01"; "2024-03"; "2024-03"]
  /\ salesByMonth 0 noon_2024_03_31 [februaryOrder; marchOrder]
     = [ {| month := {| JsDate.label_year := 2023; JsDate.label_month := 9 |};
            revenue := 0%Q; orders := 0 |};
         {| month := {| JsDate.label_year := 2023; JsDate.label_month := 11 |};
            revenue := 0%Q; orders := 0 |};
         {| month := {| JsDate.label_year := 2023; JsDate.label_month := 11 |};
            revenue := 0%Q; orders := 0 |};
         {| month := {| JsDate.label_year := 2024; JsDate.label_month := 0 |};
            revenue := 0%Q; orders := 0 |};
         {| month := {| JsDate.label_year := 2024; JsDate.label_month := 2 |};
            revenue := 40%Q; orders := 1 |};
         {| month := {| JsDate.label_year := 2024; JsDate.label_month := 2 |};
            revenue := 40%Q; orders := 1 |} ].
Proof. split; vm_compute; reflexivity. Qed.

(** The same instant seen from Cairo (14:00 local time): the same keys. *)
Example salesByMonth_cairo_month_end :
  map (monthKey cairo noon_2024_03_31) [5; 4; 3; 2; 1; 0]
  = ["2023-10"; "2023-12"; "2023-12"; "2024-01"; "2024-03"; "2024-03"]
  /\ map month (salesByMonth cairo noon_2024_03_31 [februaryOrder; marchOrder])
     = map month (salesByMonth 0 noon_2024_03_31 [februaryOrder; marchOrder]).
Proof. split; vm_compute; reflexivity. Qed.

(** Half an hour into 1 March in Cairo it is still February in UTC: the
    last entry is labelled March 2024 and counts the orders whose timestamp
    starts with 2024-02. *)
Example salesByMonth_label_and_key_differ :
  JsDate.toLocaleDateString_month_year cairo 1709245800000
  = {| JsDate.label_year := 2024; JsDate.label_month := 2 |}
  /\ monthKey cairo 1709245800000 0 = "2024-02".
Proof. split; vm_compute; reflexivity. Qed.

End AggregatorRuns.

(** ** The product repository *)

Section RepositoryFacts.
Context {N : JsNumber}.
Import Repo Spec.

Ltac run := unfold bind, call, console_error, ret, throw; simpl.

(** *** The image path pattern *)

Lemma matchImagePath_eq (path : string) :
  matchImagePath path
  = match matchHere path with
    | Some captured => Some captured
    | None =>
        match path with
        | String _ path' => matchImagePath path'
        | EmptyString => None
        end
    end.
Proof. destruct path; reflexivity. Qed.

Lemma matchHere_nonempty (path captured : string) :
  matchHere path = Some captured -> captured <> "".
Proof.
  unfold matchHere. destruct (stripPrefix publicPrefix path) as [rest |]; [| discriminate].
  destruct (dotPlus rest); [discriminate |].
  intros H. injection H as <-. discriminate.
Qed.

(** The capture group [(.+)] is never empty, so [if (filePath)] only tests
    whether the pattern matched. *)
Lemma matchImagePath_nonempty (path captured : string) :
  matchImagePath path = Some captured -> captured <> "".
Proof.
  induction path as [| c path IH]; rewrite matchImagePath_eq.
  - destruct (matchHere "") eqn:Hh; [| discriminate].
    intros H. injection H as <-. eapply matchHere_nonempty, Hh.
  - destruct (matchHere (String c path)) eqn:Hh; [| exact IH].
    intros H. injection H as <-. eapply matchHere_nonempty, Hh.
Qed.

(** *** Reading runs *)

Lemma requests_app (t1 t2 : list Event) :
  requests (t1 ++ t2) = requests t1 ++ requests t2.
Proof. apply flat_map_app. Qed.

Lemma consoleErrors_app (t1 t2 : list Event) :
  consoleErrors (t1 ++ t2) = consoleErrors t1 ++ consoleErrors t2.
Proof. apply flat_map_app. Qed.

Lemma storageFailures_app (t1 t2 : list Event) :
  storageFailures (t1 ++ t2) = storageFailures t1 ++ storageFailures t2.
Proof. apply flat_map_app. Qed.



Section Runs.
Context {S : Type} (B : Backend S) (pathname : string -> option string).

(** *** createProduct *)



(** *** deleteProduct *)

(** C6: when the fetch of the image URLs fails, [deleteProduct] throws after
    that one request: no storage removal and no row deletion is sent. *)
Theorem deleteProduct_fetch_failure_aborts (id : string) (s s1 : S)
    (e : BackendError) :
  select_image_url B id s = (Failure e, s1) ->
  exists t,
    deleteProduct B pathname id s
      = (Thrown (Error "حدث خطأ أثناء جلب بيانات المنتج"), s1, t)
    /\ t = [Call (SelectImageUrl id) (Some e);
            ConsoleError "Supabase fetch error:" (ErrorObject e)]
    /\ requests t = [SelectImageUrl id].
Proof.
  intros Hf. eexists. split; [| split; reflexivity].
  unfold deleteProduct. run. rewrite Hf. reflexivity.
Qed.


(** The loop over well-formed URLs always runs to its end: it sends one
    removal per matching URL, in order, and logs exactly the removals that
    failed. *)
Lemma removeImages_run (urls : list string) :
  Forall (wellFormed pathname) urls ->
  forall s, exists s' t,
    forEach (removeImage B pathname) urls s = (Returned tt, s', t)
    /\ requests t = map (fun p => StorageRemove [p]) (storagePaths pathname urls)
    /\ consoleErrors t = map removalLog (storageFailures t).
Proof.
  induction 1 as [| url urls Hwf _ IH]; intros s.
  - exists s, []. repeat split.
  - unfold wellFormed in Hwf. simpl. unfold bind at 1, removeImage at 1.
    change (storagePaths pathname (url :: urls))
      with (storagePaths pathname [url] ++ storagePaths pathname urls).
    unfold storagePaths at 1. simpl.
    destruct (pathname url) as [path |]; [| contradiction].
    destruct (matchImagePath path) as [filePath |] eqn:Hm.
    + apply matchImagePath_nonempty, String.eqb_neq in Hm. rewrite Hm. run.
      destruct (storage_remove B [filePath] s) as [[u | e] s1]; simpl;
        destruct (IH s1) as (s' & t & -> & Hr & Hc); simpl;
        eexists _, _; (split; [reflexivity |]); simpl;
        rewrite ?requests_app, ?consoleErrors_app, ?storageFailures_app; simpl;
        rewrite Hr, Hc; split; reflexivity.
    + run. destruct (IH s) as (s' & t & -> & Hr & Hc).
      exists s', t. repeat split; assumption.
Qed.

Lemma deleteProduct_run (id : string) (s s1 : S)
    (image_urls : option (list string)) :
  select_image_url B id s = (Data image_urls, s1) ->
  Forall (wellFormed pathname) (storedUrls image_urls) ->
  exists s2 r s3 t,
    delete_product_row B id s2 = (r, s3)
    /\ deleteProduct B pathname id s = (deletionOutcome r, s3, t)
    /\ requests t
       = SelectImageUrl id
         :: map (fun p => StorageRemove [p])
                (storagePaths pathname (storedUrls image_urls))
         ++ [DeleteProductRow id]
    /\ consoleErrors t = map removalLog (storageFailures t).
Proof.
  intros Hf Hwf.
  destruct (removeImages_run _ Hwf s1) as (s2 & t & Hrun & Hr & Hc).
  destruct (delete_product_row B id s2) as [r s3] eqn:Hd.
  assert (Hloop :
    match image_urls with
    | Some urls =>
        if 0 <? length urls then forEach (removeImage B pathname) urls
        else ret tt
    | None => ret tt
    end s1 = (Returned tt, s2, t)).
  { destruct image_urls as [[| url urls] |]; simpl in *;
      try exact Hrun; unfold ret in *; exact Hrun. }
  exists s2, r, s3. eexists. split; [exact Hd |]. split.
  - unfold deleteProduct. unfold bind at 1, call at 1. rewrite Hf. simpl.
    unfold bind at 1. rewrite Hloop. unfold bind, call. rewrite Hd.
    destruct r; reflexivity.
  - simpl. rewrite !requests_app, !consoleErrors_app, !storageFailures_app, Hr, Hc.
    destruct r; simpl; rewrite !app_nil_r; split; reflexivity.
Qed.

Lemma storageFailure_logged (t : list Event) (paths : list string)
    (e : BackendError) :
  consoleErrors t = map removalLog (storageFailures t) ->
  In (Call (StorageRemove paths) (Some e)) t ->
  In (removalLog e) (consoleErrors t).
Proof.
  intros -> Hin. apply in_map. unfold storageFailures.
  apply in_flat_map. eexists. split; [exact Hin |]. left. reflexivity.
Qed.

(** A removal that fails is logged and the loop body returns normally, so
    the loop goes on with the next URL. *)
Lemma removeImage_failure (url path filePath : string) (e : BackendError)
    (s s1 : S) :
  pathname url = Some path ->
  matchImagePath path = Some filePath ->
  storage_remove B [filePath] s = (Failure e, s1) ->
  removeImage B pathname url s
  = (Returned tt, s1,
     [Call (StorageRemove [filePath]) (Some e);
      ConsoleError "فشل حذف صورة المنتج:" (ErrorObject e)]).
Proof.
  intros Hp Hm Hr. unfold removeImage. rewrite Hp, Hm.
  apply matchImagePath_nonempty, String.eqb_neq in Hm. rewrite Hm.
  run. rewrite Hr. reflexivity.
Qed.

(** C7: a storage removal that fails is logged with [console.error] and its
    turn of the loop returns normally; with the image URLs fetched (and
    well-formed), [deleteProduct] sends a removal for every image that
    matches the pattern, in order, and then the row deletion, whichever
    removals fail; every failed removal is logged and nothing else is; the
    operation returns when the row deletion succeeds and throws when the
    row deletion fails. *)
Theorem deleteProduct_image_failures_tolerated (id : string) (s s1 : S)
    (image_urls : option (list string)) :
  select_image_url B id s = (Data image_urls, s1) ->
  Forall (wellFormed pathname) (storedUrls image_urls) ->
  (forall url path filePath e s' s'',
      pathname url = Some path ->
      matchImagePath path = Some filePath ->
      storage_remove B [filePath] s' = (Failure e, s'') ->
      removeImage B pathname url s'
      = (Returned tt, s'',
         [Call (StorageRemove [filePath]) (Some e);
          ConsoleError "فشل حذف صورة المنتج:" (ErrorObject e)]))
  /\ exists s2 r s3 t,
      delete_product_row B id s2 = (r, s3)
      /\ deleteProduct B pathname id s = (deletionOutcome r, s3, t)
      /\ requests t
         = SelectImageUrl id
           :: map (fun p => StorageRemove [p])
                  (storagePaths pathname (storedUrls image_urls))
           ++ [DeleteProductRow id]
      /\ consoleErrors t = map removalLog (storageFailures t)
      /\ (forall paths e,
            In (Call (StorageRemove paths) (Some e)) t ->
            In (removalLog e) (consoleErrors t)).
Proof.
  intros Hf Hwf. split.
  - intros url path filePath e s' s''. apply removeImage_failure.
  - destruct (deleteProduct_run id s s1 image_urls Hf Hwf)
      as (s2 & r & s3 & t & Hd & Hrun & Hr & Hc).
    exists s2, r, s3, t. repeat split; try assumption.
    intros paths e. apply storageFailure_logged, Hc.
Qed.



(** *** updateProduct *)

(** X12: what [updateProduct] does with the attributes: when the row update
    succeeds and the partial update has an [attributes] field, the existing
    attribute rows are deleted first and the new set, if non-empty, is then
    inserted; the answer to the deletion is discarded (a failure there is
    neither logged nor raised, and the insertion still follows); a failed
    insertion is logged with [console.error] and not raised; the updated
    row is returned. *)
Lemma updateProduct_replaces_attributes (id : string)
    (updatedProduct : PartialProduct) (attrs : list ProductAttribute)
    (data : ProductRow) (s s1 : S) :
  new_attributes updatedProduct = Some attrs ->
  update_product_row B id (patch updatedProduct) s = (Data data, s1) ->
  exists rdel s2,
    delete_attributes B id s1 = (rdel, s2)
    /\ (attrs = [] ->
        updateProduct B id updatedProduct s
        = (Returned data, s2,
           [Call (UpdateProductRow id (patch updatedProduct)) None;
            Call (DeleteAttributes id) (errorOf rdel)]))
    /\ (attrs <> [] ->
        exists rins s3,
          insert_attributes B (map (withProductId (Some id)) attrs) s2
            = (rins, s3)
          /\ updateProduct B id updatedProduct s
             = (Returned data, s3,
                [Call (UpdateProductRow id (patch updatedProduct)) None;
                 Call (DeleteAttributes id) (errorOf rdel);
                 Call (InsertAttributes (map (withProductId (Some id)) attrs))
                      (errorOf rins)]
                ++ match rins with
                   | Failure e =>
                       [ConsoleError "خطأ في تحديث خصائص المنتج:" (ErrorObject e)]
                   | Data _ => []
                   end)).
Proof.
  intros Hattrs Hu.
  destruct (delete_attributes B id s1) as [rdel s2] eqn:Hd.
  exists rdel, s2. split; [reflexivity |]. split.
  - intros ->. unfold updateProduct. run. rewrite Hu, Hattrs. simpl.
    rewrite Hd. reflexivity.
  - intros Hne.
    destruct (insert_attributes B (map (withProductId (Some id)) attrs) s2)
      as [rins s3] eqn:Hi.
    exists rins, s3. split; [reflexivity |].
    unfold updateProduct. run. rewrite Hu, Hattrs. simpl. rewrite Hd.
    destruct attrs as [| a attrs]; [contradiction |]. simpl in *.
    rewrite Hi. destruct rins; reflexivity.
Qed.

(** A failed row update is raised, before any request on the attributes. *)
Lemma updateProduct_update_failure (id : string)
    (updatedProduct : PartialProduct) (e : BackendError) (s s1 : S) :
  update_product_row B id (patch updatedProduct) s = (Failure e, s1) ->
  updateProduct B id updatedProduct s
  = (Thrown (Error "تعذر تحديث المنتج"), s1,
     [Call (UpdateProductRow id (patch updatedProduct)) (Some e);
      ConsoleError "خطأ في تحديث المنتج:" (ErrorMessage (message e))]).
Proof. intros Hu. unfold updateProduct. run. rewrite Hu. reflexivity. Qed.

End Runs.
End RepositoryFacts.

(** *** The repository against a scripted backend *)

Section RepositoryRuns.
Import Repo Spec Fixtures.



Lemma deleteProduct_fetch_failure_aborts_witness :
  exists t,
    deleteProduct (mock failsSelect storedShirt) simplePathname "p-1" 0
    = (Thrown (Error "حدث خطأ أثناء جلب بيانات المنتج"), 1, t)
    /\ t = [Call (SelectImageUrl "p-1") (Some boom);
            ConsoleError "Supabase fetch error:" (ErrorObject boom)]
    /\ requests t = [SelectImageUrl "p-1"].
Proof.
  apply (deleteProduct_fetch_failure_aborts
           (mock failsSelect storedShirt) simplePathname "p-1" 0 1 boom).
  reflexivity.
Defined.

Example matchImagePath_bucket :
  simplePathname (bucketUrl "products/1-a.png")
  = Some "/storage/v1/object/public/product-images/products/1-a.png"
  /\ matchImagePath "/storage/v1/object/public/product-images/products/1-a.png"
     = Some "products/1-a.png".
Proof. split; reflexivity. Qed.

Example matchImagePath_nothing_after_prefix :
  matchImagePath "/storage/v1/object/public/product-images/" = None.
Proof. reflexivity. Qed.

Example matchImagePath_elsewhere : matchImagePath "/banners/shirt.png" = None.
Proof. reflexivity. Qed.

(** The product insert fails: nothing is written to the attributes. *)
Example createProduct_insert_fails :
  createProduct (mock failsProductInsert storedShirt) newShirt 0
  = (Thrown (Error "تعذر إنشاء المنتج"), 1,
     [Call (InsertProduct shirt) (Some boom);
      ConsoleError "خطأ في إنشاء المنتج:" (ErrorObject boom)]).
Proof. reflexivity. Qed.

(** A stored string that [new URL] rejects ends the run with its TypeError,
    after the removals before it and before the row deletion. *)
Example deleteProduct_unparsable_url :
  deleteProduct (mock failsNothing legacyShirt) simplePathname "p-2" 0
  = (Thrown (TypeError "products/2-b.png"), 2,
     [Call (SelectImageUrl "p-2") None;
      Call (StorageRemove ["products/2-a.png"]) None]).
Proof. vm_compute. reflexivity. Qed.

Lemma storedShirt_wellFormed :
  Forall (wellFormed simplePathname) (storedUrls (image_url storedShirt)).
Proof. repeat constructor; discriminate. Qed.

(** The second of the three bucket images fails to be removed: the third is
    still removed and the row is still deleted. *)
Example deleteProduct_second_image_fails :
  deleteProduct (mock failsSecondImage storedShirt) simplePathname "p-1" 0
  = (Returned tt, 5,
     [Call (SelectImageUrl "p-1") None;
      Call (StorageRemove ["products/1-a.png"]) None;
      Call (StorageRemove ["products/1-b.png"]) (Some boom);
      ConsoleError "فشل حذف صورة المنتج:" (ErrorObject boom);
      Call (StorageRemove ["products/1-c.png"]) None;
      Call (DeleteProductRow "p-1") None]).
Proof. vm_compute. reflexivity. Qed.

(** The row deletion fails: the operation throws. *)
Example deleteProduct_row_deletion_fails :
  deleteProduct (mock isProductDelete storedShirt) simplePathname "p-1" 0
  = (Thrown (Error "حدث خطأ أثناء حذف المنتج"), 5,
     [Call (SelectImageUrl "p-1") None;
      Call (StorageRemove ["products/1-a.png"]) None;
      Call (StorageRemove ["products/1-b.png"]) None;
      Call (StorageRemove ["products/1-c.png"]) None;
      Call (DeleteProductRow "p-1") (Some boom)]).
Proof. vm_compute. reflexivity. Qed.

Lemma deleteProduct_image_failures_tolerated_witness :
  select_image_url (mock failsSecondImage storedShirt) "p-1" 0
    = (Data (image_url storedShirt), 1)
  /\ Forall (wellFormed simplePathname) (storedUrls (image_url storedShirt))
  /\ exists s2 r s3 t,
      delete_product_row (mock failsSecondImage storedShirt) "p-1" s2 = (r, s3)
      /\ deleteProduct (mock failsSecondImage storedShirt) simplePathname "p-1" 0
         = (deletionOutcome r, s3, t)
      /\ requests t
         = SelectImageUrl "p-1"
           :: map (fun p => StorageRemove [p])
                  (storagePaths simplePathname (storedUrls (image_url storedShirt)))
           ++ [DeleteProductRow "p-1"]
      /\ consoleErrors t = map removalLog (storageFailures t)
      /\ (forall paths e,
            In (Call (StorageRemove paths) (Some e)) t ->
            In (removalLog e) (consoleErrors t)).
Proof.
  split; [reflexivity |]. split; [exact storedShirt_wellFormed |].
  apply (proj2 (deleteProduct_image_failures_tolerated
                  (mock failsSecondImage storedShirt) simplePathname "p-1" 0 1
                  (image_url storedShirt) eq_refl storedShirt_wellFormed)).
Defined.



(** The attribute insertion fails: it is logged and the row is returned. *)
Example updateProduct_insertion_fails :
  updateProduct (mock failsAttributeInsert storedShirt) "p-1" recolour 0
  = (Returned storedShirt, 3,
     [Call (UpdateProductRow "p-1" noFields) None;
      Call (DeleteAttributes "p-1") None;
      Call (InsertAttributes [withProductId (Some "p-1") colour]) (Some boom);
      ConsoleError "خطأ في تحديث خصائص المنتج:" (ErrorObject boom)]).
Proof. reflexivity. Qed.

(** C8: [updateProduct] with an [attributes] field against a backend whose
    attribute deletion fails: the updated row is returned and the new
    attributes are inserted after the failed deletion, but the run writes
    nothing with [console.error]; so it is not the case that every failure
    of the attribute deletion or insertion is logged. *)
Theorem updateProduct_deletion_failure_unlogged :
  updateProduct (mock failsAttributeDelete storedShirt) "p-1" recolour 0
  = (Returned storedShirt, 3,
     [Call (UpdateProductRow "p-1" noFields) None;
      Call (DeleteAttributes "p-1") (Some boom);
      Call (InsertAttributes [withProductId (Some "p-1") colour]) None])
  /\ ~ attributeFailuresLogged.
Proof.
  split; [reflexivity |].
  intros H.
  destruct (H nat (mock failsAttributeDelete storedShirt) "p-1" recolour 0 _ _ _
              ltac:(discriminate) eq_refl (DeleteAttributes "p-1") boom)
    as [label Hin].
  - right. left. reflexivity.
  - reflexivity.
  - simpl in Hin. destruct Hin as [Hin | [Hin | [Hin | []]]]; discriminate.
Qed.

(** C7 as stated fails when a stored string is not a URL: the removal of
    the first image fails and is logged, then [new URL] rejects the second
    string; the third image is never removed and the row deletion is never
    sent. *)
Lemma deleteProduct_failure_then_unparsable :
  deleteProduct (mock Provisos.failsFirstImage Provisos.tornShirt)
                simplePathname "p-4" 0
  = (Thrown (TypeError "products/3-b.png"), 2,
     [Call (SelectImageUrl "p-4") None;
      Call (StorageRemove ["products/3-a.png"]) (Some boom);
      ConsoleError "فشل حذف صورة المنتج:" (ErrorObject boom)])
  /\ ~ Provisos.imageFailuresTolerated.
Proof.
  split; [vm_compute; reflexivity |].
  intros H.
  specialize (H nat (mock Provisos.failsFirstImage Provisos.tornShirt)
                simplePathname "p-4" 0 1 2
                (image_url Provisos.tornShirt)
                (Thrown (TypeError "products/3-b.png"))
                [Call (SelectImageUrl "p-4") None;
                 Call (StorageRemove ["products/3-a.png"]) (Some boom);
                 ConsoleError "فشل حذف صورة المنتج:" (ErrorObject boom)]
                eq_refl).
  assert (Hrun : deleteProduct (mock Provisos.failsFirstImage Provisos.tornShirt)
                               simplePathname "p-4" 0
                 = (Thrown (TypeError "products/3-b.png"), 2,
                    [Call (SelectImageUrl "p-4") None;
                     Call (StorageRemove ["products/3-a.png"]) (Some boom);
                     ConsoleError "فشل حذف صورة المنتج:" (ErrorObject boom)]))
    by (vm_compute; reflexivity).
  specialize (H Hrun).
  assert (Hfailed : exists paths e,
             In (Call (StorageRemove paths) (Some e))
                [Call (SelectImageUrl "p-4") None;
                 Call (StorageRemove ["products/3-a.png"]) (Some boom);
                 ConsoleError "فشل حذف صورة المنتج:" (ErrorObject boom)])
    by (exists ["products/3-a.png"], boom; right; left; reflexivity).
  specialize (H Hfailed). vm_compute in H. discriminate.
Qed.

End RepositoryRuns.

(** ** More on the analytics aggregator *)

Section MoreAggregatorFacts.
Context {N : JsNumber}.
Import Analytics Spec Terms.

(** *** Orders without a timestamp *)

Lemma filter_inMonth_hasTimestamp (key : string) (os : list Order) :
  filter (inMonth key) (filter hasTimestamp os) = filter (inMonth key) os.
Proof.
  induction os as [| o os IH]; simpl; [reflexivity |].
  unfold hasTimestamp at 1, inMonth at 2.
  destruct (created_at o) as [ts |] eqn:Hts; simpl.
  - unfold inMonth at 1. rewrite Hts. destruct (prefix key ts); rewrite IH; reflexivity.
  - exact IH.
Qed.

(** X4: the monthly series does not see an order that has no [created_at]: it
    is the series of the orders that have one. *)
Theorem salesByMonth_ignores_undated (tza now : Z) (os : list Order) :
  salesByMonth tza now os = salesByMonth tza now (filter hasTimestamp os).
Proof.
  unfold salesByMonth. f_equal. apply map_ext. intros i.
  unfold monthBucket. rewrite filter_inMonth_hasTimestamp. reflexivity.
Qed.

(** *** Counting an order once *)

Lemma length_append (a b : string) :
  String.length (a ++ b) = String.length a + String.length b.
Proof. induction a as [| c a IH]; simpl; [reflexivity | rewrite IH; reflexivity]. Qed.

Lemma length_substring_0 (n : nat) (s : string) :
  n <= String.length s -> String.length (substring 0 n s) = n.
Proof.
  revert s. induction n as [| n IH]; intros [| c s] H; simpl in *;
    try reflexivity; try lia.
  rewrite IH; [reflexivity | lia].
Qed.

Lemma toISOString_date_length (t : Z) :
  7 <= String.length (JsDate.toISOString_date t).
Proof.
  unfold JsDate.toISOString_date. cbv zeta. rewrite !length_append.
  destruct ((0 <=? JsDate.YearFromTime t)%Z && (JsDate.YearFromTime t <=? 9999)%Z).
  - simpl. lia.
  - unfold String.append at 1. destruct (JsDate.YearFromTime t <? 0)%Z; simpl; lia.
Qed.

Lemma monthKey_length (tza now : Z) (i : nat) :
  String.length (monthKey tza now i) = 7.
Proof. unfold monthKey. apply length_substring_0, toISOString_date_length. Qed.

Lemma prefix_same_length (a b s : string) :
  prefix a s = true -> prefix b s = true ->
  String.length a = String.length b -> a = b.
Proof.
  intros Ha Hb Hl. apply prefix_correct in Ha, Hb.
  rewrite <- Ha, <- Hb, Hl. reflexivity.
Qed.

(** Among distinct keys of seven characters at most one is a prefix of an
    order's timestamp. *)
Lemma at_most_one_key (keys : list string) (o : Order) :
  NoDup keys -> (forall k, In k keys -> String.length k = 7) ->
  length (filter (fun k => inMonth k o) keys) <= 1.
Proof.
  induction keys as [| a keys IH]; simpl; intros Hnd Hlen; [lia |].
  apply NoDup_cons_iff in Hnd as [Ha Hnd].
  destruct (inMonth a o) eqn:Hin; [| apply IH; auto].
  simpl. rewrite (filter_none (fun k => inMonth k o) keys); [simpl; lia |].
  intros k Hk. destruct (inMonth k o) eqn:Hk'; [| reflexivity].
  exfalso. apply Ha. unfold inMonth in *.
  destruct (created_at o) as [ts |]; [| discriminate].
  rewrite (prefix_same_length a k ts Hin Hk'); [exact Hk |].
  rewrite !Hlen; auto.
Qed.

Lemma list_sum_cons (x : nat) (l : list nat) :
  list_sum (x :: l) = x + list_sum l.
Proof. reflexivity. Qed.

Lemma bucket_counts_cons (keys : list string) (o : Order) (os : list Order) :
  list_sum (map (fun k => length (filter (inMonth k) (o :: os))) keys)
  = length (filter (fun k => inMonth k o) keys)
    + list_sum (map (fun k => length (filter (inMonth k) os)) keys).
Proof.
  induction keys as [| a keys IH]; [reflexivity |].
  cbn [map]. rewrite !list_sum_cons, IH.
  cbn [filter]. destruct (inMonth a o); cbn [length]; lia.
Qed.

Lemma bucket_counts_bound (keys : list string) (os : list Order) :
  NoDup keys -> (forall k, In k keys -> String.length k = 7) ->
  list_sum (map (fun k => length (filter (inMonth k) os)) keys) <= length os.
Proof.
  intros Hnd Hlen. induction os as [| o os IH].
  - simpl. induction keys; simpl; auto. apply IHkeys.
    + apply NoDup_cons_iff in Hnd. tauto.
    + intros k Hk. apply Hlen. right. exact Hk.
  - rewrite bucket_counts_cons. pose proof (at_most_one_key keys o Hnd Hlen).
    simpl. lia.
Qed.

(** X3: when the six month keys are distinct, no order is counted in two
    entries: the order counts of the series add up to at most the number of
    fetched orders. *)
Theorem salesByMonth_counts_once (tza now : Z) (os : list Order) :
  NoDup (map (monthKey tza now) (seq 0 6)) ->
  list_sum (map orders (salesByMonth tza now os)) <= length os.
Proof.
  intros Hnd. unfold salesByMonth. rewrite <- map_rev, map_map.
  change (map (fun i => orders (monthBucket tza now os i)) (rev (seq 0 6)))
    with (map (fun i => (fun k => length (filter (inMonth k) os)) (monthKey tza now i))
              (rev (seq 0 6))).
  rewrite <- (map_map (monthKey tza now)
                      (fun k => length (filter (inMonth k) os))).
  apply bucket_counts_bound.
  - rewrite map_rev. apply NoDup_rev, Hnd.
  - intros k Hk. apply in_map_iff in Hk as (i & <- & _). apply monthKey_length.
Qed.

(** *** The names of the map *)

Lemma recordSale_names_eq (x : OrderItem) (m : list ProductSales) :
  map name (recordSale x m)
  = if existsb (String.eqb (productName x)) (map name m)
    then map name m
    else map name m ++ [productName x].
Proof.
  destruct (recordSale_names x m) as [[Hin ->] | [Hnin ->]].
  - rewrite (proj2 (existsb_exists _ _)); [reflexivity |].
    exists (productName x). split; [exact Hin | apply String.eqb_refl].
  - destruct (existsb (String.eqb (productName x)) (map name m)) eqn:He;
      [| reflexivity].
    apply existsb_exists in He as (n & Hn & Heq).
    apply String.eqb_eq in Heq. subst n. contradiction.
Qed.

(** X5: the map lists the display names of all items, each once, in the order
    in which they are first met. *)
Theorem productSales_names (os : list Order) :
  map name (productSales os) = distinctNames (map productName (allItems os)).
Proof.
  rewrite productSales_allItems. unfold distinctNames.
  assert (Hgen : forall items m,
    map name (fold_left (fun m' it => recordSale it m') items m)
    = fold_left (fun seen n =>
                   if existsb (String.eqb n) seen then seen else seen ++ [n])
                (map productName items) (map name m)).
  { induction items as [| x items IH]; intros m; simpl; [reflexivity |].
    rewrite IH, recordSale_names_eq. reflexivity. }
  exact (Hgen (allItems os) []).
Qed.

(** *** What the ranking drops *)



(** *** No orders *)

(** X7: with no fetched order the summary has zero revenue and average, no top
    product, and six entries without revenue or orders; the counts of
    orders, customers and products are those the backend reported. *)
Theorem summarize_no_orders (orderTotal userTotal : nat) (productTotal : Z)
    (tza now : Z) :
  let d := Dashboard.summarize
             {| Dashboard.orderStats_total := orderTotal;
                Dashboard.fetched_orders := [];
                Dashboard.products_total := productTotal;
                Dashboard.userStats_total := userTotal |} tza now in
  Dashboard.totalRevenue d = zero
  /\ Dashboard.averageOrderValue d = zero
  /\ Dashboard.topProducts d = []
  /\ length (Dashboard.salesByMonth d) = 6
  /\ Forall (fun e => revenue e = zero /\ orders e = 0) (Dashboard.salesByMonth d)
  /\ Dashboard.revenueSeries d = repeat zero 6
  /\ Dashboard.totalOrders d = orderTotal
  /\ Dashboard.totalCustomers d = userTotal
  /\ Dashboard.totalProducts d = productTotal.
Proof.
  simpl. repeat split.
  repeat constructor.
Qed.

End MoreAggregatorFacts.

(** ** More on the product repository *)

Section MoreRepositoryFacts.
Context {N : JsNumber}.
Import Repo Spec.

Ltac run := unfold bind, call, console_error, ret, throw; simpl.

(** *** The image path pattern *)

Lemma stripPrefix_Some (p s rest : string) :
  stripPrefix p s = Some rest -> s = (p ++ rest)%string.
Proof.
  revert s. induction p as [| a p IH]; intros s; simpl.
  - intros H. injection H as ->. reflexivity.
  - destruct s as [| b s]; [discriminate |].
    destruct (Ascii.eqb_spec a b) as [-> | _]; [| discriminate].
    intros H. rewrite (IH s H). reflexivity.
Qed.

Lemma stripPrefix_append (p rest : string) :
  stripPrefix p (p ++ rest) = Some rest.
Proof.
  induction p as [| a p IH]; simpl; [reflexivity |].
  rewrite Ascii.eqb_refl. exact IH.
Qed.

(** [.+] takes a prefix and stops at the end or at a line terminator. *)
Lemma dotPlus_split (s : string) :
  exists tail,
    s = (dotPlus s ++ tail)%string
    /\ (tail = "" \/ startsLineTerminator tail = true).
Proof.
  induction s as [| c s IH].
  - exists "". split; [reflexivity | left; reflexivity].
  - cbn [dotPlus]. destruct (startsLineTerminator (String c s)) eqn:Hlt.
    + exists (String c s). split; [reflexivity | right; exact Hlt].
    + destruct IH as (tail & Hs & Htail). exists tail. split; [| exact Htail].
      simpl. rewrite <- Hs. reflexivity.
Qed.

Lemma append_assoc (a b c : string) : ((a ++ b) ++ c = a ++ (b ++ c))%string.
Proof. induction a as [| x a IH]; simpl; [reflexivity | rewrite IH; reflexivity]. Qed.

(** X8: what [deleteProduct] takes for the storage key is cut out of the path:
    it stands right after an occurrence of the public prefix, is not empty
    and runs to the end of the path or to a line terminator. *)
Theorem matchImagePath_sound (path captured : string) :
  matchImagePath path = Some captured ->
  captured <> ""
  /\ exists before tail,
       path = (before ++ publicPrefix ++ captured ++ tail)%string
       /\ (tail = "" \/ startsLineTerminator tail = true).
Proof.
  intros Hm. split; [eapply matchImagePath_nonempty, Hm |].
  revert Hm. induction path as [| c path IH]; rewrite matchImagePath_eq.
  - unfold matchHere. simpl. discriminate.
  - destruct (matchHere (String c path)) as [here |] eqn:Hh.
    + intros H. injection H as <-. unfold matchHere in Hh.
      destruct (stripPrefix publicPrefix (String c path)) as [rest |] eqn:Hs;
        [| discriminate].
      apply stripPrefix_Some in Hs.
      assert (Hc : here = dotPlus rest)
        by (destruct (dotPlus rest); [discriminate | injection Hh as <-; reflexivity]).
      destruct (dotPlus_split rest) as (tail & Hrest & Htail).
      exists "", tail. split; [| exact Htail].
      rewrite Hs, Hc. simpl String.append at 1. rewrite <- Hrest. reflexivity.
    + intros H. destruct (IH H) as (before & tail & -> & Htail).
      exists (String c before), tail. split; [reflexivity | exact Htail].
Qed.

(** A path that is the public prefix followed by a key yields the key, up
    to its first line terminator. *)
Lemma matchImagePath_prefixed (key : string) :
  dotPlus key <> "" ->
  matchImagePath (publicPrefix ++ key) = Some (dotPlus key).
Proof.
  intros Hne. rewrite matchImagePath_eq. unfold matchHere.
  rewrite stripPrefix_append.
  destruct (dotPlus key); [contradiction | reflexivity].
Qed.

Section Runs.
Context {S : Type} (B : Backend S) (pathname : string -> option string).

(** *** deleteProduct *)

Lemma forEach_app {A} (body : A -> M S unit) (l1 l2 : list A) (s : S) :
  forEach body (l1 ++ l2) s
  = match forEach body l1 s with
    | (Returned _, s1, t1) =>
        match forEach body l2 s1 with
        | (out, s2, t2) => (out, s2, t1 ++ t2)
        end
    | (Thrown e, s1, t1) => (Thrown e, s1, t1)
    end.
Proof.
  revert s. induction l1 as [| x l1 IH]; intros s; simpl.
  - unfold ret. destruct (forEach body l2 s) as [[out s2] t2]. reflexivity.
  - unfold bind. destruct (body x s) as [[[[] | e] s1] t1]; [| reflexivity].
    rewrite IH. destruct (forEach body l1 s1) as [[[[] | e] s2] t2]; [| reflexivity].
    destruct (forEach body l2 s2) as [[out s3] t3]. rewrite app_assoc. reflexivity.
Qed.

Lemma removals_not_row_deletions (paths : list string) :
  existsb isProductDelete (map (fun p => StorageRemove [p]) paths) = false.
Proof. induction paths as [| p paths IH]; simpl; [reflexivity | exact IH]. Qed.

(** X9: a stored string that [new URL] rejects ends [deleteProduct] with the
    TypeError: the images before it have been removed and the row deletion
    is never sent. *)
Theorem deleteProduct_unparsable_aborts (id bad : string)
    (before after : list string) (s s1 : S) :
  select_image_url B id s = (Data (Some (before ++ bad :: after)), s1) ->
  Forall (wellFormed pathname) before ->
  pathname bad = None ->
  exists s2 t,
    deleteProduct B pathname id s = (Thrown (TypeError bad), s2, t)
    /\ requests t
       = SelectImageUrl id
         :: map (fun p => StorageRemove [p]) (storagePaths pathname before)
    /\ existsb isProductDelete (requests t) = false.
Proof.
  intros Hf Hwf Hbad.
  destruct (removeImages_run B pathname before Hwf s1) as (s2 & t & Hrun & Hr & _).
  assert (Hloop :
    forEach (removeImage B pathname) (before ++ bad :: after) s1
    = (Thrown (TypeError bad), s2, t)).
  { rewrite forEach_app, Hrun. simpl. unfold bind, removeImage.
    rewrite Hbad. unfold throw. rewrite app_nil_r. reflexivity. }
  exists s2. eexists. split; [| split].
  - unfold deleteProduct. unfold bind at 1, call at 1. rewrite Hf. simpl.
    unfold bind at 1.
    replace (0 <? length (before ++ bad :: after)) with true
      by (symmetry; apply Nat.ltb_lt; rewrite length_app; simpl; lia).
    rewrite Hloop. reflexivity.
  - simpl. rewrite Hr. reflexivity.
  - simpl. rewrite Hr. apply removals_not_row_deletions.
Qed.

(** X10: a product without images (a null or an empty [image_url]) is deleted
    with two requests: the fetch and the row deletion. *)
Theorem deleteProduct_without_images (id : string) (s s1 : S)
    (image_urls : option (list string)) :
  select_image_url B id s = (Data image_urls, s1) ->
  storedUrls image_urls = [] ->
  exists r s2,
    delete_product_row B id s1 = (r, s2)
    /\ deleteProduct B pathname id s
       = (deletionOutcome r, s2,
          [Call (SelectImageUrl id) None;
           Call (DeleteProductRow id) (errorOf r)]).
Proof.
  intros Hf Hnone.
  destruct (delete_product_row B id s1) as [r s2] eqn:Hd.
  exists r, s2. split; [reflexivity |].
  unfold deleteProduct. run. rewrite Hf. simpl.
  destruct image_urls as [urls |]; simpl in Hnone; [subst urls |]; simpl;
    rewrite Hd; destruct r; reflexivity.
Qed.

(** A URL whose path is the public prefix followed by a key without line
    terminators makes the loop body ask for the removal of exactly that
    key. *)
Lemma removeImage_prefixed_key (url key : string) (s : S) :
  pathname url = Some (publicPrefix ++ key)%string ->
  key <> "" -> dotPlus key = key ->
  exists out s1 t,
    removeImage B pathname url s = (out, s1, t)
    /\ requests t = [StorageRemove [key]].
Proof.
  intros Hp Hne Hkey. unfold removeImage. rewrite Hp.
  rewrite matchImagePath_prefixed by (rewrite Hkey; exact Hne).
  rewrite Hkey. apply String.eqb_neq in Hne. rewrite Hne. run.
  destruct (storage_remove B [key] s) as [[u | e] s1]; simpl;
    eexists _, _, _; split; reflexivity.
Qed.

(** *** createProduct *)

(** X11: [createProduct] writes to the attributes exactly when the product
    insert succeeded and a non-empty attribute list was supplied; it sends
    at most two requests and never a row deletion. *)
Theorem createProduct_attribute_requests (productData : Product) (s s' : S)
    (out : Outcome Product) (t : list Event) :
  createProduct B productData s = (out, s', t) ->
  (existsb isAttributeWrite (requests t) = true <->
   exists created s1 attrs,
     insert_product B (row productData) s = (Data created, s1)
     /\ attributes productData = Some attrs /\ attrs <> [])
  /\ existsb isProductDelete (requests t) = false
  /\ length (requests t) <= 2.
Proof.
  unfold createProduct. run.
  destruct (insert_product B (row productData) s) as [[created | e] s1]; simpl.
  - destruct (attributes productData) as [[| a attrs] |]; simpl.
    + intros H. injection H as <- <- <-.
      split; [split | split; [reflexivity | simpl; lia]].
      * simpl. discriminate.
      * intros (c & s0 & l & _ & Hl & Hne). congruence.
    + destruct (insert_attributes B _ s1) as [[u | e] s2]; simpl;
        intros H; injection H as <- <- <-;
        (split; [split | split; [reflexivity | simpl; lia]]);
        try reflexivity;
        intros _; exists created, s1, (a :: attrs);
        (split; [reflexivity | split; [reflexivity | discriminate]]).
    + intros H. injection H as <- <- <-.
      split; [split | split; [reflexivity | simpl; lia]].
      * simpl. discriminate.
      * intros (c & s0 & l & _ & Hl & _). discriminate.
  - intros H. injection H as <- <- <-.
    split; [split | split; [reflexivity | simpl; lia]].
    + simpl. discriminate.
    + intros (c & s0 & l & Hc & _). discriminate.
Qed.

(** *** updateProduct *)

(** X13: [updateProduct] returns the updated row exactly when the row update
    succeeded, whatever happens to the attributes, and it writes to the
    attributes exactly when the row update succeeded and the partial update
    has an [attributes] field. *)
Theorem updateProduct_attribute_requests (id : string)
    (updatedProduct : PartialProduct) (s s' : S)
    (out : Outcome ProductRow) (t : list Event) :
  updateProduct B id updatedProduct s = (out, s', t) ->
  (forall data,
      out = Returned data <->
      exists s1, update_product_row B id (patch updatedProduct) s = (Data data, s1))
  /\ (existsb isAttributeWrite (requests t) = true <->
      (exists data s1,
          update_product_row B id (patch updatedProduct) s = (Data data, s1))
      /\ new_attributes updatedProduct <> None).
Proof.
  unfold updateProduct. run.
  destruct (update_product_row B id (patch updatedProduct) s)
    as [[data | e] s1]; simpl.
  - assert (Hret : forall d, Returned data = Returned d <->
                            exists s0 : S, (Data data, s1) = (Data d, s0)).
    { intros d. split.
      - intros H. injection H as <-. exists s1. reflexivity.
      - intros (s0 & H). injection H as <- _. reflexivity. }
    destruct (new_attributes updatedProduct) as [attrs |]; simpl.
    + destruct (delete_attributes B id s1) as [rdel s2]. simpl.
      destruct attrs as [| a attrs]; simpl.
      * intros H. injection H as <- <- <-. split; [exact Hret |]. simpl.
        split; [intros _; split; [eauto | discriminate] | reflexivity].
      * destruct (insert_attributes B _ s2) as [[u | e] s3]; simpl;
          intros H; injection H as <- <- <-; (split; [exact Hret |]); simpl;
          (split; [intros _; split; [eauto | discriminate] | reflexivity]).
    + intros H. injection H as <- <- <-. split; [exact Hret |]. simpl.
      split; [discriminate | intros [_ Hne]; contradiction].
  - intros H. injection H as <- <- <-. split.
    + intros d. split; [discriminate | intros (s0 & H); discriminate].
    + simpl. split; [discriminate | intros [(d & s0 & H) _]; discriminate].
Qed.

End Runs.
End MoreRepositoryFacts.

(** ** The catalogue reads and the image upload *)

Section CatalogFacts.
Import JsDate JsDateSetters Catalog Terms.

Ltac euclid := Z.to_euclidean_division_equations; lia.

(** *** File extensions *)

Lemma list_ascii_of_string_append (a b : string) :
  list_ascii_of_string (a ++ b)
  = list_ascii_of_string a ++ list_ascii_of_string b.
Proof. induction a as [| c a IH]; simpl; [reflexivity | rewrite IH; reflexivity]. Qed.

Lemma hasDot_append (a b : string) : hasDot (a ++ b) = hasDot a || hasDot b.
Proof. unfold hasDot. rewrite list_ascii_of_string_append. apply existsb_app. Qed.

Lemma string_append_assoc (a b c : string) :
  ((a ++ b) ++ c = a ++ (b ++ c))%string.
Proof. induction a as [| x a IH]; simpl; [reflexivity | rewrite IH; reflexivity]. Qed.

Lemma string_append_nil_r (a : string) : (a ++ "")%string = a.
Proof. induction a as [| x a IH]; simpl; [reflexivity | rewrite IH; reflexivity]. Qed.

(** X15: the extension [uploadProductImage] takes from a file name holds no dot;
    it is the whole name when the name has no dot, and otherwise the name
    is some stem, a dot and the extension. *)
Theorem fileExtOf_spec (name : string) :
  hasDot (fileExtOf name) = false
  /\ (hasDot name = false -> fileExtOf name = name)
  /\ (hasDot name = true ->
      exists stem, name = (stem ++ "." ++ fileExtOf name)%string).
Proof.
  enough (Hgen : forall acc,
    hasDot acc = false ->
    hasDot (lastSegmentFrom acc name) = false
    /\ (hasDot name = false -> lastSegmentFrom acc name = (acc ++ name)%string)
    /\ (hasDot name = true ->
        exists stem,
          (acc ++ name)%string = (stem ++ "." ++ lastSegmentFrom acc name)%string))
    by exact (Hgen "" eq_refl).
  induction name as [| c name IH]; intros acc Hacc.
  - simpl. split; [exact Hacc |]. split; [| discriminate].
    intros _. symmetry. apply string_append_nil_r.
  - cbn [lastSegmentFrom]. unfold hasDot at 2 3. cbn [list_ascii_of_string existsb].
    fold (hasDot name).
    destruct (Ascii.eqb_spec c ".") as [-> | Hc].
    + destruct (IH "" eq_refl) as (Hno & Hplain & Hdot).
      remember (lastSegmentFrom "" name) as r eqn:Hr.
      split; [exact Hno |]. rewrite Ascii.eqb_refl. simpl orb.
      split; [discriminate |]. intros _.
      destruct (hasDot name) eqn:Hn.
      * destruct (Hdot eq_refl) as (stem & Hstem). simpl in Hstem.
        exists (acc ++ "." ++ stem)%string.
        rewrite Hstem, !string_append_assoc. reflexivity.
      * rewrite (Hplain eq_refl). exists acc. reflexivity.
    + assert (Hne : Ascii.eqb "." c = false)
        by (apply Ascii.eqb_neq; intros H; apply Hc; symmetry; exact H).
      rewrite Hne. simpl orb.
      assert (Hacc' : hasDot (acc ++ String c "") = false).
      { rewrite hasDot_append, Hacc. unfold hasDot.
        cbn [list_ascii_of_string existsb]. rewrite Hne. reflexivity. }
      destruct (IH _ Hacc') as (Hno & Hplain & Hdot).
      split; [exact Hno |]. split.
      * intros Hn. rewrite (Hplain Hn), string_append_assoc. reflexivity.
      * intros Hn. destruct (Hdot Hn) as (stem & Hstem). exists stem.
        rewrite <- Hstem, string_append_assoc. reflexivity.
Qed.

(** *** Pages *)

(** X16: the windows of the pages: each holds [limit] row indices and the next
    page starts right after; for a limit of at least 1 every row index from
    0 on lies in the window of exactly one page from 1 on; for a limit
    below 1 the windows are empty. *)
Theorem pagination_windows (limit : Z) :
  (forall page, rangeTo page limit - rangeFrom page limit + 1 = limit)%Z
  /\ (forall page, rangeFrom (page + 1) limit = rangeTo page limit + 1)%Z
  /\ (limit <= 0 -> forall page r, ~ inWindow page limit r)%Z
  /\ (1 <= limit ->
      forall r, 0 <= r ->
      exists page,
        1 <= page /\ inWindow page limit r
        /\ forall page', inWindow page' limit r -> page' = page)%Z.
Proof.
  unfold inWindow, rangeTo, rangeFrom. repeat split.
  - intros page. lia.
  - intros page. lia.
  - intros Hl page r. lia.
  - intros Hl r Hr. exists (r / limit + 1)%Z.
    pose proof (Z.div_pos r limit Hr ltac:(lia)).
    pose proof (Z.mul_div_le r limit ltac:(lia)).
    pose proof (Z.mul_succ_div_gt r limit ltac:(lia)).
    split; [lia |]. split; [nia |].
    intros page' [Hlo Hhi]. nia.
Qed.

(** *** The date window *)

Local Open Scope Z_scope.

(** [setDate] moves the Date by whole days. *)
Lemma setDate_shift (tza t dt : Z) :
  setDate tza t dt = t + (dt - getDate tza t) * msPerDay.
Proof.
  unfold setDate, getDate, MakeDay, YearFromTime, MonthFromTime, DateFromTime.
  cbv zeta. set (lt := LocalTime tza t).
  pose proof (civil_from_days_inverse (Day lt)) as H.
  destruct (civil_from_days (Day lt)) as [[y m] d]. simpl. destruct H as [H Hm].
  replace (m / 12) with 0 by euclid. replace (m mod 12) with m by euclid.
  replace (y + 0) with y by lia.
  rewrite (days_from_civil_day y m d) in H.
  unfold UTC, MakeDate, Day, TimeWithinDay, msPerDay in *.
  subst lt. unfold LocalTime in *. euclid.
Qed.

(** In a zone of one fixed offset the ["today"] window starts at the local
    midnight of the day of [startDate]. *)
Theorem windowStart_today (tza now startDate : Z) :
  let t := windowStart tza now startDate "today" in
  TimeWithinDay (LocalTime tza t) = 0
  /\ Day (LocalTime tza t) = Day (LocalTime tza startDate)
  /\ t <= startDate < t + msPerDay.
Proof.
  unfold windowStart. simpl String.eqb. cbv iota.
  unfold setHours, MakeTime, UTC, MakeDate, LocalTime, TimeWithinDay, Day,
    msPerDay, msPerHour, msPerMinute, msPerSecond.
  cbv zeta. repeat split; euclid.
Qed.

(** In a zone of one fixed offset the ["week"] window starts seven days
    before [startDate], at the same time of day, when the two Dates were
    read on the same local day. *)
Theorem windowStart_week (tza now startDate : Z) :
  sameLocalDay tza now startDate ->
  windowStart tza now startDate "week" = startDate - 7 * msPerDay.
Proof.
  intros Hsame. unfold windowStart. simpl String.eqb. cbv iota.
  rewrite setDate_shift. unfold getDate, DateFromTime.
  unfold sameLocalDay in Hsame. rewrite Hsame. lia.
Qed.


(** *** The date window in a zone whose offset changes *)

Lemma windowStartIn_fixed (tza now startDate : Z) (key : string) :
  JsZone.windowStartIn (JsZone.fixedZone tza) now startDate key
  = windowStart tza now startDate key.
Proof.
  unfold JsZone.windowStartIn, windowStart.
  unfold JsZone.setHoursIn, JsZone.setDateIn, JsZone.setMonthIn,
    JsZone.setFullYearIn, JsZone.getDateIn, JsZone.getMonthIn,
    JsZone.getFullYearIn, JsZone.UTCIn, JsZone.LocalTimeIn, JsZone.fixedZone.
  unfold setHours, setDate, setMonth, setFullYear, getDate, getMonth,
    getFullYear, UTC, LocalTime.
  cbn [JsZone.offsetAt JsZone.offsetAtLocal].
  repeat match goal with
         | |- context [String.eqb key ?k] => destruct (String.eqb key k)
         end; reflexivity.
Qed.

(** [setDate] moves the local time by whole days. *)
Lemma setDate_local (lt dt : Z) :
  MakeDate (MakeDay (YearFromTime lt) (MonthFromTime lt) dt) (TimeWithinDay lt)
  = lt + (dt - DateFromTime lt) * msPerDay.
Proof.
  unfold MakeDay, YearFromTime, MonthFromTime, DateFromTime. cbv zeta.
  pose proof (civil_from_days_inverse (Day lt)) as H.
  destruct (civil_from_days (Day lt)) as [[y m] d]. simpl. destruct H as [H Hm].
  replace (m / 12) with 0 by euclid. replace (m mod 12) with m by euclid.
  replace (y + 0) with y by lia.
  rewrite (days_from_civil_day y m d) in H.
  unfold MakeDate, Day, TimeWithinDay, msPerDay in *. euclid.
Qed.

(** X17: the ["today"] bound is the instant the zone assigns to the local
    midnight of the day of [startDate]; when the offset taken for that
    midnight and the offset in force at the bound are the offset in force
    at [startDate] (no change of offset in between), the bound reads 00:00
    local time, on the same local day, at most one day before
    [startDate]. *)
Theorem windowStartIn_today (z : JsZone.Zone) (now startDate : Z) :
  let midnight := MakeDate (Day (JsZone.LocalTimeIn z startDate)) 0 in
  let t := JsZone.windowStartIn z now startDate "today" in
  t = midnight - JsZone.offsetAtLocal z midnight
  /\ (JsZone.offsetAtLocal z midnight = JsZone.offsetAt z startDate ->
      JsZone.offsetAt z t = JsZone.offsetAt z startDate ->
      TimeWithinDay (JsZone.LocalTimeIn z t) = 0
      /\ Day (JsZone.LocalTimeIn z t) = Day (JsZone.LocalTimeIn z startDate)
      /\ t <= startDate < t + msPerDay).
Proof.
  cbv zeta. unfold JsZone.windowStartIn. simpl String.eqb. cbv iota.
  unfold JsZone.setHoursIn, JsZone.UTCIn. cbv zeta.
  change (MakeTime 0 0 0 0) with 0.
  set (midnight := MakeDate (Day (JsZone.LocalTimeIn z startDate)) 0).
  split; [reflexivity |].
  intros Hlocal Hat. unfold JsZone.LocalTimeIn at 1 2. rewrite Hat, Hlocal.
  replace (midnight - JsZone.offsetAt z startDate + JsZone.offsetAt z startDate)
    with midnight by lia.
  subst midnight. unfold JsZone.LocalTimeIn.
  generalize (JsZone.offsetAt z startDate) as c. intros c.
  unfold MakeDate, TimeWithinDay, Day, msPerDay. repeat split; euclid.
Qed.

(** X18: when the two Dates are read on the same local day, the ["week"]
    bound is the instant the zone assigns to the local time seven days
    before the local time of [startDate]; it lies exactly seven days before
    [startDate] when the offset taken for that local time is the offset in
    force at [startDate]. *)
Theorem windowStartIn_week (z : JsZone.Zone) (now startDate : Z) :
  JsZone.sameLocalDayIn z now startDate ->
  let target := JsZone.LocalTimeIn z startDate - 7 * msPerDay in
  let t := JsZone.windowStartIn z now startDate "week" in
  t = target - JsZone.offsetAtLocal z target
  /\ (JsZone.offsetAtLocal z target = JsZone.offsetAt z startDate ->
      t = startDate - 7 * msPerDay).
Proof.
  intros Hsame. cbv zeta. unfold JsZone.windowStartIn. simpl String.eqb. cbv iota.
  unfold JsZone.setDateIn, JsZone.UTCIn, JsZone.getDateIn. cbv zeta.
  rewrite setDate_local.
  unfold JsZone.sameLocalDayIn in Hsame.
  assert (Hdate : DateFromTime (JsZone.LocalTimeIn z now)
                  = DateFromTime (JsZone.LocalTimeIn z startDate))
    by (unfold DateFromTime; rewrite Hsame; reflexivity).
  rewrite Hdate.
  replace (JsZone.LocalTimeIn z startDate
           + (DateFromTime (JsZone.LocalTimeIn z startDate) - 7
              - DateFromTime (JsZone.LocalTimeIn z startDate)) * msPerDay)
    with (JsZone.LocalTimeIn z startDate - 7 * msPerDay) by lia.
  split; [reflexivity |].
  intros ->. unfold JsZone.LocalTimeIn. lia.
Qed.

Local Close Scope Z_scope.

End CatalogFacts.

(** *** The products query *)

Section QueryFacts.
Context {N : JsNumber}.
Import Catalog Terms Spec.

Lemma In_truthy_step (o : option string) (f : string -> QueryStep) (x : QueryStep) :
  In x (match Analytics.truthy o with Some s => [f s] | None => [] end)
  <-> exists s, o = Some s /\ s <> "" /\ x = f s.
Proof.
  destruct (Analytics.truthy o) as [s |] eqn:Ht.
  - apply truthy_present in Ht as [Ho Hs]. split.
    + intros [<- | []]. eauto.
    + intros (s' & Ho' & _ & ->). left. congruence.
  - apply truthy_absent in Ht. split; [intros [] |].
    intros (s' & Ho' & Hs' & _). destruct Ht as [Ht | Ht]; congruence.
Qed.

Lemma In_flag_step (o : option bool) (f : bool -> QueryStep) (x : QueryStep) :
  In x (match o with Some b => [f b] | None => [] end)
  <-> exists b, o = Some b /\ x = f b.
Proof.
  destruct o as [b |]; split.
  - intros [<- | []]. eauto.
  - intros (b' & Hb & ->). left. congruence.
  - intros [].
  - intros (b' & Hb & _). discriminate.
Qed.

Lemma In_productsQuery (page limit : Z) (filters : option Filters)
    (tza now startDate : Z) (x : QueryStep) :
  In x (productsQuery page limit filters tza now startDate)
  <-> x = FromSelect "products" productColumns true
      \/ (exists s, field filters categoryId = Some s /\ s <> ""
                    /\ x = Eq "category_id" (VString s))
      \/ (exists s, field filters search = Some s /\ s <> ""
                    /\ x = Or (searchFilter s))
      \/ (exists s, field filters date = Some s /\ s <> ""
                    /\ x = Gte "created_at"
                             (JsDateSetters.toISOString
                                (windowStart tza now startDate s)))
      \/ (exists b, field filters isBestSeller = Some b
                    /\ x = Eq "is_best_seller" (VBool b))
      \/ (exists b, field filters limitedTimeOffer = Some b
                    /\ x = Eq "limited_time_offer" (VBool b))
      \/ x = Order "created_at" false
      \/ x = Range (rangeFrom page limit) (rangeTo page limit).
Proof.
  unfold productsQuery, filterSteps. cbn [In].
  rewrite !in_app_iff.
  rewrite (In_truthy_step _ (fun c => Eq "category_id" (VString c))).
  rewrite (In_truthy_step _ (fun s => Or (searchFilter s))).
  rewrite (In_truthy_step _
             (fun key => Gte "created_at"
                             (JsDateSetters.toISOString
                                (windowStart tza now startDate key)))).
  rewrite (In_flag_step _ (fun b => Eq "is_best_seller" (VBool b))).
  rewrite (In_flag_step _ (fun b => Eq "limited_time_offer" (VBool b))).
  cbn [In]. intuition (subst; auto).
Qed.

Ltac pick H :=
  apply In_productsQuery in H;
  repeat match type of H with
         | _ \/ _ => destruct H as [H | H]
         | exists _, _ => destruct H as (? & H)
         | _ /\ _ => destruct H as (? & H)
         end; try discriminate.

(** X20: the filters of the query are exactly the supplied ones: a category, a
    search text or a date key is applied when it is a non-empty string, a
    flag whenever it is given, [false] included; a date key the [switch]
    does not know still filters, from the instant of [startDate] on. *)
Theorem productsQuery_filters (page limit : Z) (filters : option Filters)
    (tza now startDate : Z) :
  let q := productsQuery page limit filters tza now startDate in
  (forall c, In (Eq "category_id" (VString c)) q
             <-> field filters categoryId = Some c /\ c <> "")
  /\ (forall e, In (Or e) q
                <-> exists s, field filters search = Some s /\ s <> ""
                              /\ e = searchFilter s)
  /\ (forall v, In (Gte "created_at" v) q
                <-> exists key, field filters date = Some key /\ key <> ""
                                /\ v = JsDateSetters.toISOString
                                         (windowStart tza now startDate key))
  /\ (forall b, In (Eq "is_best_seller" (VBool b)) q
                <-> field filters isBestSeller = Some b)
  /\ (forall b, In (Eq "limited_time_offer" (VBool b)) q
                <-> field filters limitedTimeOffer = Some b)
  /\ (forall key, unknownDateKey key -> windowStart tza now startDate key = startDate).
Proof.
  cbv zeta. repeat apply conj.
  - intros c. split.
    + intros H. pick H. all: inversion H; subst; auto.
    + intros [Hc Hne]. apply In_productsQuery. right. left. eauto.
  - intros e. split.
    + intros H. pick H. all: inversion H; subst; eauto.
    + intros (s & Hs & Hne & ->). apply In_productsQuery. right. right. left. eauto.
  - intros v. split.
    + intros H. pick H. all: inversion H; subst; eauto.
    + intros (s & Hs & Hne & ->). apply In_productsQuery.
      right. right. right. left. eauto.
  - intros b. split.
    + intros H. pick H. all: inversion H; subst; auto.
    + intros Hb. apply In_productsQuery. right. right. right. right. left. eauto.
  - intros b. split.
    + intros H. pick H. all: inversion H; subst; auto.
    + intros Hb. apply In_productsQuery.
      right. right. right. right. right. left. eauto.
  - intros key (H1 & H2 & H3 & H4). unfold windowStart.
    apply String.eqb_neq in H1, H2, H3, H4. rewrite H1, H2, H3, H4. reflexivity.
Qed.

Section Reads.
Context {S : Type} (B : ReadBackend S).

(** X21: [getProducts] sends one query; it resolves exactly when the answer
    carries no error, with the rows and the count of the answer, an absent
    row list read as the empty list and an absent count as 0; when the
    answer carries an error it logs the error's message and rejects with
    its fixed message, whatever rows came along. *)
Theorem getProducts_outcome (page limit : option Z) (filters : option Filters)
    (tza now startDate : Z) (s s' : S)
    (result : Result ProductPage) (t : list ReadEvent) :
  getProducts B page limit filters tza now startDate s = (result, s', t) ->
  exists res,
    run_query B (productsQuery (orDefault 1 page) (orDefault 10 limit)
                               filters tza now startDate) s = (res, s')
    /\ queriesOf t = [productsQuery (orDefault 1 page) (orDefault 10 limit)
                                    filters tza now startDate]
    /\ (error res = None ->
        result = Resolved {| products := match data res with
                                         | Some rows => rows
                                         | None => []
                                         end;
                             total := match count res with
                                      | Some n => n
                                      | None => 0%Z
                                      end |})
    /\ (forall e, error res = Some e ->
        result = Rejected (RaisedError "تعذر تحميل المنتجات")
        /\ In (LogError "خطأ في جلب المنتجات:" (Repo.message e)) t).
Proof.
  unfold getProducts. cbv zeta.
  destruct (run_query B _ s) as [res s1].
  destruct (error res) as [e |] eqn:He; intros H; injection H as <- <- <-;
    exists res; (split; [reflexivity | split; [reflexivity | split]]);
    rewrite He.
  - discriminate.
  - intros e' He'. injection He' as <-. split; [reflexivity | simpl; auto].
  - intros _. reflexivity.
  - discriminate.
Qed.

(** [getProductById] sends one request and rejects with the backend's own
    error, without logging. *)
Lemma getProductById_outcome (id : string) (s : S) :
  exists r s1,
    select_product B id s = (r, s1)
    /\ getProductById B id s
       = (match r with
          | Repo.Data p => Resolved p
          | Repo.Failure e => Rejected (RaisedBackend e)
          end, s1, [SelectProduct id (Repo.errorOf r)]).
Proof.
  unfold getProductById.
  destruct (select_product B id s) as [[p | e] s1]; eexists _, _; split; reflexivity.
Qed.

(** *** Upload, then delete *)

Lemma storageKey_nonempty (folder : string) (now : Z) (token fileExt : string) :
  storageKey folder now token fileExt <> "".
Proof. unfold storageKey. destruct folder; discriminate. Qed.

(** X14: an image that [uploadProductImage] stored under a key is removed under
    that key by the loop of [deleteProduct], provided the public URL's path
    is the public prefix followed by the key and the key holds no line
    terminator; the upload sends one request and resolves with the public
    URL of the key. *)
Theorem uploaded_image_is_removed {S' : Type} (R : Repo.Backend S')
    (pathname : string -> option string)
    (file : ImageFile) (folder : option string) (now : Z) (token : string)
    (s s1 : S) (url : string) (t : list ReadEvent) :
  uploadProductImage B file folder now token s = (Resolved url, s1, t) ->
  exists key,
    key = storageKey (match folder with Some f => f | None => "products" end)
                     now token (fileExtOf (fileName file))
    /\ url = getPublicUrl B key
    /\ t = [Upload key (fileDataOf file) (contentTypeOf file) None]
    /\ (pathname url = Some (Repo.publicPrefix ++ key)%string ->
        Repo.dotPlus key = key ->
        forall s2, exists out s3 t',
          Repo.removeImage R pathname url s2 = (out, s3, t')
          /\ Repo.requests t' = [Repo.StorageRemove [key]]).
Proof.
  unfold uploadProductImage. cbv zeta.
  set (key := storageKey _ now token (fileExtOf (fileName file))).
  destruct (storage_upload B key _ _ s) as [[u | e] s0]; [| discriminate].
  intros H. injection H as <- <- <-. exists key. repeat split.
  intros Hp Hkey s2.
  apply (removeImage_prefixed_key R pathname _ key s2 Hp);
    [apply storageKey_nonempty | exact Hkey].
Qed.

End Reads.
End QueryFacts.

(** *** The added facts on concrete data *)

Section MoreRuns.
Import Analytics Spec Terms Fixtures MoreFixtures.

Example fileExtOf_examples :
  Catalog.fileExtOf "shirt.front.jpeg" = "jpeg"
  /\ Catalog.fileExtOf "README" = "README"
  /\ Catalog.fileExtOf "archive." = ""
  /\ Catalog.fileExtOf ".gitignore" = "gitignore".
Proof. repeat split. Qed.

Example toISOString_noon :
  JsDateSetters.toISOString noon_2024_03_31 = "2024-03-31T12:00:00.000Z".
Proof. vm_compute. reflexivity. Qed.

(** The windows read in Cairo at 14:00 on 31 March 2024: the ["month"]
    window starts on 2 March. *)
Example windowStart_examples :
  map (fun key => JsDateSetters.toISOString
                    (Catalog.windowStart cairo noon_2024_03_31 noon_2024_03_31 key))
      ["today"; "week"; "month"; "year"; "decade"]
  = ["2024-03-30T22:00:00.000Z"; "2024-03-24T12:00:00.000Z";
     "2024-03-02T12:00:00.000Z"; "2023-03-31T12:00:00.000Z";
     "2024-03-31T12:00:00.000Z"].
Proof. vm_compute. reflexivity. Qed.

Example productsQuery_example :
  Catalog.productsQuery 2 10 (Some bestSellersOnly) 0 0 0
  = [Catalog.FromSelect "products" Catalog.productColumns true;
     Catalog.Eq "is_best_seller" (Catalog.VBool false);
     Catalog.Order "created_at" false;
     Catalog.Range 10 19].
Proof. reflexivity. Qed.

Lemma regular_day_2024_03_15 :
  (1 <= JsDate.DateFromTime (JsDate.LocalTime 0 noon_2024_03_15) <= 28)%Z.
Proof. vm_compute. split; discriminate. Qed.

Lemma salesByMonth_regular_labels_witness :
  (1 <= JsDate.DateFromTime (JsDate.LocalTime 0 noon_2024_03_15) <= 28)%Z
  /\ map month (salesByMonth 0 noon_2024_03_15 [februaryOrder; marchOrder])
     = map (monthsBefore (JsDate.toLocaleDateString_month_year 0 noon_2024_03_15))
           [5; 4; 3; 2; 1; 0].
Proof.
  split; [exact regular_day_2024_03_15 |].
  apply (salesByMonth_regular_labels 0 noon_2024_03_15 _ regular_day_2024_03_15).
Defined.

Lemma distinct_keys_2024_03_15 :
  NoDup (map (monthKey 0 noon_2024_03_15) (seq 0 6)).
Proof.
  vm_compute.
  repeat (constructor; [simpl; intuition discriminate |]). constructor.
Qed.

Lemma salesByMonth_counts_once_witness :
  NoDup (map (monthKey 0 noon_2024_03_15) (seq 0 6))
  /\ list_sum (map orders (salesByMonth 0 noon_2024_03_15
                                        [februaryOrder; marchOrder; undatedOrder]))
     <= 3.
Proof.
  split; [exact distinct_keys_2024_03_15 |].
  apply (salesByMonth_counts_once 0 noon_2024_03_15
           [februaryOrder; marchOrder; undatedOrder] distinct_keys_2024_03_15).
Defined.

(** At the end of March the keys repeat and the March order is counted
    twice: the bound needs its hypothesis. *)
Example salesByMonth_counts_twice :
  list_sum (map orders (salesByMonth 0 noon_2024_03_31 [marchOrder])) = 2.
Proof. vm_compute. reflexivity. Qed.


Lemma fileExtOf_spec_witness :
  hasDot "shirt.front.jpeg" = true
  /\ exists stem,
      "shirt.front.jpeg" = (stem ++ "." ++ Catalog.fileExtOf "shirt.front.jpeg")%string.
Proof.
  split; [reflexivity |].
  apply (proj2 (proj2 (fileExtOf_spec "shirt.front.jpeg"))). reflexivity.
Defined.

Lemma pagination_windows_witness :
  (1 <= 10)%Z /\ (0 <= 25)%Z
  /\ exists page,
      (1 <= page)%Z /\ inWindow page 10 25
      /\ forall page', inWindow page' 10 25 -> page' = page.
Proof.
  split; [lia |]. split; [lia |].
  apply (proj2 (proj2 (proj2 (pagination_windows 10)))); lia.
Defined.

Example windowStart_week_fixed_offset :
  sameLocalDay cairo noon_2024_03_31 noon_2024_03_31
  /\ Catalog.windowStart cairo noon_2024_03_31 noon_2024_03_31 "week"
     = (noon_2024_03_31 - 7 * JsDate.msPerDay)%Z.
Proof.
  split; [reflexivity |].
  apply (windowStart_week cairo noon_2024_03_31 noon_2024_03_31). reflexivity.
Qed.

(** Read in Cairo at 15:00 on 1 May 2024, five days after the clocks went
    forward: the ["week"] bound is 15:00 local time on 24 April, which is
    13:00Z, an hour less than seven days back; the ["today"] bound is the
    local midnight of 1 May. *)
Example windowStartIn_cairo_after_dst :
  JsDateSetters.toISOString
    (JsZone.windowStartIn JsZone.cairo2024 JsZone.noon_2024_05_01
                          JsZone.noon_2024_05_01 "week")
  = "2024-04-24T13:00:00.000Z"
  /\ JsDateSetters.toISOString
       (JsZone.windowStartIn JsZone.cairo2024 JsZone.noon_2024_05_01
                             JsZone.noon_2024_05_01 "today")
     = "2024-04-30T21:00:00.000Z"
  /\ JsDateSetters.toISOString JsZone.cairoDstStart = "2024-04-25T22:00:00.000Z".
Proof. repeat split; vm_compute; reflexivity. Qed.

Lemma windowStartIn_today_witness :
  let midnight :=
    JsDate.MakeDate
      (JsDate.Day (JsZone.LocalTimeIn JsZone.cairo2024 JsZone.noon_2024_05_01)) 0 in
  let t := JsZone.windowStartIn JsZone.cairo2024 JsZone.noon_2024_05_01
                                JsZone.noon_2024_05_01 "today" in
  JsZone.offsetAtLocal JsZone.cairo2024 midnight
  = JsZone.offsetAt JsZone.cairo2024 JsZone.noon_2024_05_01
  /\ JsZone.offsetAt JsZone.cairo2024 t
     = JsZone.offsetAt JsZone.cairo2024 JsZone.noon_2024_05_01
  /\ JsDate.TimeWithinDay (JsZone.LocalTimeIn JsZone.cairo2024 t) = 0%Z
  /\ JsDate.Day (JsZone.LocalTimeIn JsZone.cairo2024 t)
     = JsDate.Day (JsZone.LocalTimeIn JsZone.cairo2024 JsZone.noon_2024_05_01)
  /\ (t <= JsZone.noon_2024_05_01 < t + JsDate.msPerDay)%Z.
Proof.
  cbv zeta.
  split; [vm_compute; reflexivity |]. split; [vm_compute; reflexivity |].
  apply (proj2 (windowStartIn_today JsZone.cairo2024 JsZone.noon_2024_05_01
                  JsZone.noon_2024_05_01));
    vm_compute; reflexivity.
Defined.

Lemma windowStartIn_week_witness :
  JsZone.sameLocalDayIn JsZone.cairo2024 JsZone.noon_2024_05_15 JsZone.noon_2024_05_15
  /\ JsZone.offsetAtLocal JsZone.cairo2024
       (JsZone.LocalTimeIn JsZone.cairo2024 JsZone.noon_2024_05_15
        - 7 * JsDate.msPerDay)%Z
     = JsZone.offsetAt JsZone.cairo2024 JsZone.noon_2024_05_15
  /\ JsZone.windowStartIn JsZone.cairo2024 JsZone.noon_2024_05_15
                          JsZone.noon_2024_05_15 "week"
     = (JsZone.noon_2024_05_15 - 7 * JsDate.msPerDay)%Z.
Proof.
  split; [reflexivity |]. split; [vm_compute; reflexivity |].
  apply (proj2 (windowStartIn_week JsZone.cairo2024 JsZone.noon_2024_05_15
                  JsZone.noon_2024_05_15 eq_refl)).
  vm_compute. reflexivity.
Defined.



Lemma decade_unknown : unknownDateKey "decade".
Proof. repeat split; discriminate. Qed.

Lemma productsQuery_filters_witness :
  unknownDateKey "decade"
  /\ Catalog.windowStart cairo noon_2024_03_31 noon_2024_03_31 "decade"
     = noon_2024_03_31.
Proof.
  split; [exact decade_unknown |].
  apply (proj2 (proj2 (proj2 (proj2 (proj2
           (productsQuery_filters 1 10 None
              cairo noon_2024_03_31 noon_2024_03_31)))))).
  exact decade_unknown.
Defined.

Lemma getProducts_outcome_witness :
  Catalog.getProducts (readMock true) None None (Some bestSellersOnly) 0 0 0 0
  = (Catalog.Rejected (Catalog.RaisedError "تعذر تحميل المنتجات"), 1, failedQueryRun)
  /\ exists res,
      Catalog.run_query (readMock true)
        (Catalog.productsQuery 1 10 (Some bestSellersOnly) 0 0 0) 0 = (res, 1)
      /\ forall e, Catalog.error res = Some e ->
           In (Catalog.LogError "خطأ في جلب المنتجات:" (Repo.message e))
              failedQueryRun.
Proof.
  split; [reflexivity |].
  destruct (getProducts_outcome (readMock true) None None (Some bestSellersOnly)
              0 0 0 0 1
              (Catalog.Rejected (Catalog.RaisedError "تعذر تحميل المنتجات"))
              failedQueryRun eq_refl)
    as (res & Hq & _ & _ & Herr).
  exists res. split; [exact Hq |].
  intros e He. exact (proj2 (Herr e He)).
Defined.

Lemma uploaded_key_has_no_line_terminator :
  Repo.dotPlus "products/1711886400000-k3j9x.jpeg"
  = "products/1711886400000-k3j9x.jpeg".
Proof. vm_compute. reflexivity. Qed.

Lemma uploaded_image_is_removed_witness :
  Catalog.uploadProductImage (readMock false) frontPhoto None noon_2024_03_31 "k3j9x" 0
  = (Catalog.Resolved (bucketUrl "products/1711886400000-k3j9x.jpeg"), 1,
     [Catalog.Upload "products/1711886400000-k3j9x.jpeg"
                     (Catalog.DecodedBase64 "AAAA") "image/jpeg" None])
  /\ exists out s3 t',
      Repo.removeImage (mock failsNothing storedShirt) simplePathname
                       (bucketUrl "products/1711886400000-k3j9x.jpeg") 1
      = (out, s3, t')
      /\ Repo.requests t' = [Repo.StorageRemove ["products/1711886400000-k3j9x.jpeg"]].
Proof.
  split; [vm_compute; reflexivity |].
  destruct (uploaded_image_is_removed (readMock false)
              (mock failsNothing storedShirt) simplePathname
              frontPhoto None noon_2024_03_31 "k3j9x" 0 1
              (bucketUrl "products/1711886400000-k3j9x.jpeg")
              [Catalog.Upload "products/1711886400000-k3j9x.jpeg"
                              (Catalog.DecodedBase64 "AAAA") "image/jpeg" None])
    as (key & Hkey & _ & _ & Hremove).
  - vm_compute. reflexivity.
  - assert (Hk : key = "products/1711886400000-k3j9x.jpeg")
      by (rewrite Hkey; vm_compute; reflexivity).
    rewrite Hk in Hremove. apply Hremove.
    + vm_compute. reflexivity.
    + exact uploaded_key_has_no_line_terminator.
Defined.

Lemma matchImagePath_sound_witness :
  Repo.matchImagePath "/storage/v1/object/public/product-images/products/1-a.png"
  = Some "products/1-a.png"
  /\ exists before tail,
      "/storage/v1/object/public/product-images/products/1-a.png"
      = (before ++ Repo.publicPrefix ++ "products/1-a.png" ++ tail)%string
      /\ (tail = "" \/ Repo.startsLineTerminator tail = true).
Proof.
  split; [reflexivity |].
  apply (proj2 (matchImagePath_sound
                  "/storage/v1/object/public/product-images/products/1-a.png"
                  "products/1-a.png" eq_refl)).
Defined.

Lemma legacy_first_wellFormed :
  Forall (wellFormed simplePathname) [bucketUrl "products/2-a.png"].
Proof. repeat constructor; discriminate. Qed.

Lemma deleteProduct_unparsable_aborts_witness :
  Repo.select_image_url (mock failsNothing legacyShirt) "p-2" 0
  = (Repo.Data (Some ([bucketUrl "products/2-a.png"] ++ "products/2-b.png" :: [])), 1)
  /\ simplePathname "products/2-b.png" = None
  /\ exists s2 t,
      Repo.deleteProduct (mock failsNothing legacyShirt) simplePathname "p-2" 0
      = (Repo.Thrown (Repo.TypeError "products/2-b.png"), s2, t)
      /\ Repo.requests t
         = Repo.SelectImageUrl "p-2"
           :: map (fun p => Repo.StorageRemove [p])
                  (Repo.storagePaths simplePathname [bucketUrl "products/2-a.png"])
      /\ existsb Repo.isProductDelete (Repo.requests t) = false.
Proof.
  split; [reflexivity |]. split; [reflexivity |].
  apply (deleteProduct_unparsable_aborts
           (mock failsNothing legacyShirt) simplePathname "p-2" "products/2-b.png"
           [bucketUrl "products/2-a.png"] [] 0 1
           eq_refl legacy_first_wellFormed eq_refl).
Defined.

Lemma deleteProduct_without_images_witness :
  Repo.select_image_url (mock failsNothing bareShirt) "p-3" 0 = (Repo.Data None, 1)
  /\ exists r s2,
      Repo.delete_product_row (mock failsNothing bareShirt) "p-3" 1 = (r, s2)
      /\ Repo.deleteProduct (mock failsNothing bareShirt) simplePathname "p-3" 0
         = (deletionOutcome r, s2,
            [Repo.Call (Repo.SelectImageUrl "p-3") None;
             Repo.Call (Repo.DeleteProductRow "p-3") (Repo.errorOf r)]).
Proof.
  split; [reflexivity |].
  apply (deleteProduct_without_images
           (mock failsNothing bareShirt) simplePathname "p-3" 0 1 None
           eq_refl eq_refl).
Defined.

Lemma createProduct_attribute_requests_witness :
  Repo.createProduct (mock failsNothing storedShirt)
                     {| Repo.row := shirt; Repo.attributes := Some [] |} 0
  = (Repo.Returned (Repo.productOfRow storedShirt), 1,
     [Repo.Call (Repo.InsertProduct shirt) None])
  /\ existsb Repo.isProductDelete
             (Repo.requests [Repo.Call (Repo.InsertProduct shirt) None]) = false
  /\ length (Repo.requests [Repo.Call (Repo.InsertProduct shirt) None]) <= 2.
Proof.
  split; [reflexivity |].
  apply (proj2 (createProduct_attribute_requests
                  (mock failsNothing storedShirt)
                  {| Repo.row := shirt; Repo.attributes := Some [] |} 0 1
                  (Repo.Returned (Repo.productOfRow storedShirt))
                  [Repo.Call (Repo.InsertProduct shirt) None] eq_refl)).
Defined.

Lemma updateProduct_attribute_requests_witness :
  Repo.updateProduct (mock failsNothing storedShirt) "p-1"
                     {| Repo.patch := noFields; Repo.new_attributes := None |} 0
  = (Repo.Returned storedShirt, 1,
     [Repo.Call (Repo.UpdateProductRow "p-1" noFields) None])
  /\ (existsb Repo.isAttributeWrite
              (Repo.requests [Repo.Call (Repo.UpdateProductRow "p-1" noFields) None])
      = true <->
      (exists data s1,
          Repo.update_product_row (mock failsNothing storedShirt) "p-1" noFields 0
          = (Repo.Data data, s1))
      /\ @None (list Repo.ProductAttribute) <> None).
Proof.
  split; [reflexivity |].
  apply (proj2 (updateProduct_attribute_requests
                  (mock failsNothing storedShirt) "p-1"
                  {| Repo.patch := noFields; Repo.new_attributes := None |} 0 1
                  (Repo.Returned storedShirt)
                  [Repo.Call (Repo.UpdateProductRow "p-1" noFields) None] eq_refl)).
Defined.

Lemma updateProduct_replaces_attributes_witness :
  Repo.new_attributes recolour = Some [colour]
  /\ Repo.update_product_row (mock failsAttributeDelete storedShirt) "p-1"
                             (Repo.patch recolour) 0
     = (Repo.Data storedShirt, 1)
  /\ exists rdel s2,
      Repo.delete_attributes (mock failsAttributeDelete storedShirt) "p-1" 1
      = (rdel, s2)
      /\ ([colour] <> [] ->
          exists rins s3,
            Repo.insert_attributes (mock failsAttributeDelete storedShirt)
              (map (Repo.withProductId (Some "p-1")) [colour]) s2 = (rins, s3)
            /\ Repo.updateProduct (mock failsAttributeDelete storedShirt) "p-1"
                                  recolour 0
               = (Repo.Returned storedShirt, s3,
                  [Repo.Call (Repo.UpdateProductRow "p-1" (Repo.patch recolour)) None;
                   Repo.Call (Repo.DeleteAttributes "p-1") (Repo.errorOf rdel);
                   Repo.Call (Repo.InsertAttributes
                                (map (Repo.withProductId (Some "p-1")) [colour]))
                             (Repo.errorOf rins)]
                  ++ match rins with
                     | Repo.Failure e =>
                         [Repo.ConsoleError "خطأ في تحديث خصائص المنتج:"
                                            (Repo.ErrorObject e)]
                     | Repo.Data _ => []
                     end)).
Proof.
  split; [reflexivity |]. split; [reflexivity |].
  destruct (updateProduct_replaces_attributes
              (mock failsAttributeDelete storedShirt) "p-1" recolour [colour]
              storedShirt 0 1 eq_refl eq_refl)
    as (rdel & s2 & Hd & _ & Hins).
  exists rdel, s2. split; [exact Hd | exact Hins].
Defined.

End MoreRuns.

(** *** The effect of the analytics view *)

Section ViewFacts.
Context {N : JsNumber}.

(** Whether the reads resolve or one of them rejects, the view stops
    loading; its data is replaced by the summary in the first case and kept
    as it was, with one line logged, in the second. *)
Lemma fetchAnalyticsData_outcome (fetched : option Dashboard.Fetched)
    (tza now : Z) (v : Dashboard.View) :
  let '(v', logged) := Dashboard.fetchAnalyticsData fetched tza now v in
  Dashboard.isLoading v' = false
  /\ match fetched with
     | Some f =>
         Dashboard.analyticsData v' = Dashboard.summarize f tza now
         /\ logged = []
         /\ length (Dashboard.revenueCategories (Dashboard.analyticsData v')) = 6
         /\ length (Dashboard.revenueSeries (Dashboard.analyticsData v')) = 6
     | None =>
         Dashboard.analyticsData v' = Dashboard.analyticsData v
         /\ length logged = 1
     end.
Proof. destruct fetched as [f |]; simpl; repeat split. Qed.

End ViewFacts.
